(** * train-resnet50-multiray-wds: the notebook's own functions, embedded

    The notebook [examples/train-resnet50-multiray-wds.ipynb] wires three
    external libraries together (torch, webdataset, ray).  What it defines
    itself is small: the generator [enumerate_report], the loader
    constructors [make_dataloader_train] / [make_dataloader], the dataclass
    [Config], the training loop [train], and the two Ray entry points
    [train_on_ray] and [distributed_training].

    Embedding conventions.
    - Python [int] is [Z]; Python [float] is the kernel's binary64 [float];
      [Optional[int]] is [option Z]; [str] is [string].
    - [enumerate_report] is duck-typed over its numbers (it only subtracts,
      compares and multiplies them), so it is written over a class [Number]
      with instances for [float] and [Z] (all of its numbers of one type).
    - [os.environ] is a [gmap string string].
    - Calls into torch / ray / webdataset are recorded, in order, as [event]s
      of a process; the data they deliver (batches, clock readings, the GPU
      count) is an input of the run.
    - An exception is a value of [exn]; a call that may raise returns a
      [result].
    - The statements of the code cells are also kept as a syntax tree
      ([notebook]), for what the code contains rather than what it
      computes. *)

From Stdlib Require Import ZArith List Bool Lia.
From Stdlib Require Import Floats.PrimFloat Floats.SpecFloat Floats.FloatOps.
From Stdlib Require Import Floats.FloatAxioms.
From stdpp Require Import gmap strings list.

Local Open Scope Z_scope.

(* Decimal literals such as 0.001 denote the nearest binary64 value, as in
   Python. *)
#[local] Set Warnings "-inexact-float".

(** ** Python runtime pieces *)

Module Py.

(** The exceptions the notebook's code can run into. *)
Inductive exn : Type :=
| ValueError (msg : string)
| NameError (name : string)      (* name 'name' is not defined *)
| TypeError (msg : string).

Inductive result (A : Type) : Type :=
| Return (a : A)
| Raise (e : exn).
Global Arguments Return {A} a.
Global Arguments Raise {A} e.

(** [range(n)]: 0, 1, ..., n-1; empty when [n <= 0]. *)
Definition range (n : Z) : list Z := seqZ 0 n.

(** [int(x)] for a float: truncation toward zero; [None] stands for the
    OverflowError / ValueError Python raises on infinities and NaN. *)
Definition int_of_float (x : float) : option Z :=
  match Prim2SF x with
  | S754_zero _ => Some 0
  | S754_infinity _ => None
  | S754_nan => None
  | S754_finite s m e =>
      let mag := if (0 <=? e) then Z.pos m * 2 ^ e
                 else Z.pos m / 2 ^ (- e) in
      Some (if s then - mag else mag)
  end.

(** [float(n)] for a small natural number (a [len]). *)
Fixpoint float_of_nat (n : nat) : float :=
  match n with
  | O => 0%float
  | S k => (float_of_nat k + 1)%float
  end.

(** [sum(xs)]: left to right, starting from [0]. *)
Definition fsum (xs : list float) : float :=
  fold_left PrimFloat.add xs 0%float.

(** [collections.deque(maxlen=n)] as the list of its elements, oldest
    first.  [append] drops the oldest element when the deque is full. *)
Definition deque_append (maxlen : nat) (x : float) (d : list float) : list float :=
  let d' := d ++ [x] in
  if (maxlen <? length d')%nat then tail d' else d'.

End Py.
Import Py.

(** ** Numbers as [enumerate_report] uses them

    [enumerate_report] is duck-typed.  An instance is the arithmetic of
    one Python number type, for readings, interval and growth alike:
    floats, which is what [time.time()] and [Config] supply, or ints. *)

Class Number (T : Type) : Type := {
  num_zero : T;                 (* the literal 0 *)
  num_sub : T -> T -> T;        (* x - y *)
  num_mul : T -> T -> T;        (* x * y *)
  num_gt : T -> T -> bool       (* x > y *)
}.

#[export] Instance float_Number : Number float := {|
  num_zero := 0%float;
  num_sub := PrimFloat.sub;
  num_mul := PrimFloat.mul;
  num_gt := fun x y => PrimFloat.ltb y x
|}.

#[export] Instance Z_Number : Number Z := {|
  num_zero := 0;
  num_sub := Z.sub;
  num_mul := Z.mul;
  num_gt := Z.gtb
|}.

(** ** enumerate_report

<<
def enumerate_report(seq, delta, growth=1.0):
    last = 0
    count = 0
    for count, item in enumerate(seq):
        now = time.time()
        if now - last > delta:
            last = now
            yield count, item, True
        else:
            yield count, item, False
        delta *= growth
>>
    The generator calls [time.time()] once per element; [clock k] is the
    reading of its k-th call, that is, the time observed at element [k]. *)

Section EnumerateReport.
Context {T : Type} `{Number T} {A : Type}.

(** The generator's two mutable locals ([count] is [enumerate]'s). *)
Record report_vars : Type := { last : T; delta : T }.

(** One turn of the [for] body, at element [count] with reading [now]. *)
Definition report_body (growth : T) (v : report_vars) (count : nat) (item : A)
    (now : T) : (nat * A * bool) * report_vars :=
  if num_gt (num_sub now (last v)) (delta v)
  then ((count, item, true),
        {| last := now; delta := num_mul (delta v) growth |})
  else ((count, item, false),
        {| last := last v; delta := num_mul (delta v) growth |}).

Fixpoint report_loop (clock : nat -> T) (growth : T) (v : report_vars)
    (count : nat) (seq : list A) : list (nat * A * bool) * report_vars :=
  match seq with
  | [] => ([], v)
  | item :: rest =>
      let '(y, v') := report_body growth v count item (clock count) in
      let '(ys, vf) := report_loop clock growth v' (S count) rest in
      (y :: ys, vf)
  end.

Definition report_init (delta0 : T) : report_vars :=
  {| last := num_zero; delta := delta0 |}.

(** Everything the generator yields when it is driven to exhaustion. *)
Definition enumerate_report (clock : nat -> T) (seq : list A) (delta0 growth : T)
    : list (nat * A * bool) :=
  fst (report_loop clock growth (report_init delta0) 0%nat seq).

(** The locals as they stand when the generator reaches element [n]
    (after [n] elements have been yielded). *)
Definition report_vars_at (clock : nat -> T) (seq : list A) (delta0 growth : T)
    (n : nat) : report_vars :=
  snd (report_loop clock growth (report_init delta0) 0%nat (take n seq)).

End EnumerateReport.

(** [growth=1.0], the default of the third parameter: a float. *)
Definition growth_default : float := 1%float.

(** ** What a run receives from outside

    [Batch]: one element of the training loader, [data[0]] and [data[1]],
    together with the two numbers torch computes on it in this run
    ([loss.item()] and [accuracy.item()]). *)

Record Batch : Type := {
  inputs : Z;                   (* handle of the image tensor, data[0] *)
  labels : list Z;              (* class ids, data[1] *)
  loss_item : float;
  accuracy_item : float
}.

(** A webdataset pipeline is recorded as the list of its stages. *)
Inductive stage : Type :=
| WebDataset (url : string) (resampled : bool) (cache : option string)
| Shuffle (n : Z)
| Decode (spec : string)
| MapSample (transforms : list string)
| Batched (n : Z)
| WebLoader (loader_batch_size : option Z) (num_workers : Z)
| Unbatched
| WithEpoch (n : Z).

Definition DataLoader : Type := list stage.

Record World : Type := {
  on_colab : bool;                               (* 'google.colab' in sys.modules *)
  clock : nat -> float;                          (* k-th reading of time.time() *)
  loader_pass : DataLoader -> nat -> list Batch  (* batches of the n-th pass *)
}.

(** ** Cells 3 and 4: dataset location *)

Definition bucket : string :=
  "https://storage.googleapis.com/webdataset/fake-imagenet".
Definition trainset_url : string :=
  String.append bucket "/imagenet-train-{000000..001281}.tar".
Definition valset_url : string :=
  String.append bucket "/imagenet-val-{000000..000049}.tar".
Definition batch_size : Z := 32.

Definition cache_dir (w : World) : option string :=
  if on_colab w then None else Some "./_cache"%string.

(** ** Cell 5: make_dataloader_train *)

Definition make_dataloader_train (w : World) : DataLoader :=
  [ WebDataset trainset_url true (cache_dir w);
    Shuffle 1000; Decode "pil";
    MapSample ["RandomResizedCrop(224)"; "RandomHorizontalFlip()"; "ToTensor()"]%string;
    Batched 64;
    WebLoader None 4;
    Unbatched; Shuffle 1000; Batched batch_size;
    WithEpoch (1282 * 100 / 64) ].

(** ** The notebook's global namespace

    Every name the notebook binds at top level: its imports, its
    assignments, its class and its functions.  A call of a global resolves
    the name here when the call is executed. *)

Inductive pyobj : Type :=
| PyModule
| PyValue
| PyClass
| PyFunction
| PyLoaderFunction (build : DataLoader).   (* a zero-argument loader constructor *)

Definition notebook_globals (w : World) : gmap string pyobj :=
  list_to_map
    [ ("os", PyModule); ("sys", PyModule); ("torch", PyModule); ("nn", PyModule);
      ("dist", PyModule); ("DistributedDataParallel", PyClass);
      ("resnet50", PyFunction); ("datasets", PyModule); ("transforms", PyModule);
      ("ray", PyModule); ("wds", PyModule); ("dataclasses", PyModule);
      ("time", PyModule); ("deque", PyClass); ("Optional", PyValue);
      ("enumerate_report", PyFunction);
      ("bucket", PyValue); ("trainset_url", PyValue); ("valset_url", PyValue);
      ("batch_size", PyValue); ("cache_dir", PyValue);
      ("make_dataloader_train", PyLoaderFunction (make_dataloader_train w));
      ("make_dataloader", PyFunction); ("sample", PyValue);
      ("Config", PyClass); ("train", PyFunction); ("config", PyValue);
      ("train_on_ray", PyFunction); ("distributed_training", PyFunction) ]%string.

(** [name()] for a global that is expected to build a loader.  An unbound
    name raises NameError.  (A name bound to something that is not a loader
    constructor is reported as a TypeError; the notebook has no such call.) *)
Definition call_loader (w : World) (name : string) : result DataLoader :=
  match notebook_globals w !! name with
  | None => Raise (NameError name)
  | Some (PyLoaderFunction d) => Return d
  | Some _ => Raise (TypeError name)
  end.

(** ** Cell 6: make_dataloader

<<
def make_dataloader(split="train"):
    if split == "train":
        return make_dataloader_train()
    elif split == "val":
        return make_dataloader_val() # not implemented for this notebook
    else:
        raise ValueError(f"unknown split {split}")
>> *)

Definition make_dataloader (w : World) (split : string) : result DataLoader :=
  if String.eqb split "train" then call_loader w "make_dataloader_train"
  else if String.eqb split "val" then call_loader w "make_dataloader_val"
  else Raise (ValueError (String.append "unknown split " split)).

(** [split="train"], the default of the parameter. *)
Definition split_default : string := "train".

(** ** Cell 8: Config *)

Record Config : Type := {
  epochs : Z;
  maxsteps : Z;
  lr : float;
  momentum : float;
  rank : option Z;
  world_size : Z;
  backend : string;
  master_addr : string;
  master_port : string;
  report_s : float;
  report_growth : float
}.

(** [int(1e18)], the default of [maxsteps]. *)
Definition maxsteps_default : Z :=
  match int_of_float 1e18%float with
  | Some z => z
  | None => 0
  end.

(** [Config()] *)
Definition Config_default : Config := {|
  epochs := 1;
  maxsteps := maxsteps_default;
  lr := 0.001%float;
  momentum := 0.9%float;
  rank := None;
  world_size := 2;
  backend := "nccl";
  master_addr := "localhost";
  master_port := "12355";
  report_s := 15.0%float;
  report_growth := 1.1%float
|}.

(** Attribute assignments used by the notebook. *)
Definition set_rank (r : option Z) (c : Config) : Config :=
  {| epochs := epochs c; maxsteps := maxsteps c; lr := lr c;
     momentum := momentum c; rank := r; world_size := world_size c;
     backend := backend c; master_addr := master_addr c;
     master_port := master_port c; report_s := report_s c;
     report_growth := report_growth c |}.

Definition set_world_size (n : Z) (c : Config) : Config :=
  {| epochs := epochs c; maxsteps := maxsteps c; lr := lr c;
     momentum := momentum c; rank := rank c; world_size := n;
     backend := backend c; master_addr := master_addr c;
     master_port := master_port c; report_s := report_s c;
     report_growth := report_growth c |}.

Definition set_epochs (n : Z) (c : Config) : Config :=
  {| epochs := n; maxsteps := maxsteps c; lr := lr c;
     momentum := momentum c; rank := rank c; world_size := world_size c;
     backend := backend c; master_addr := master_addr c;
     master_port := master_port c; report_s := report_s c;
     report_growth := report_growth c |}.

Definition set_maxsteps (n : Z) (c : Config) : Config :=
  {| epochs := epochs c; maxsteps := n; lr := lr c;
     momentum := momentum c; rank := rank c; world_size := world_size c;
     backend := backend c; master_addr := master_addr c;
     master_port := master_port c; report_s := report_s c;
     report_growth := report_growth c |}.

Definition set_momentum (m : float) (c : Config) : Config :=
  {| epochs := epochs c; maxsteps := maxsteps c; lr := lr c;
     momentum := m; rank := rank c; world_size := world_size c;
     backend := backend c; master_addr := master_addr c;
     master_port := master_port c; report_s := report_s c;
     report_growth := report_growth c |}.

(** ** A process: its environment and the external calls it has made *)

Inductive stream : Type := stdout | stderr.

Inductive message : Type :=
| MsgReport (r : option Z) (epoch : Z) (i : nat) (avgloss avgaccuracy : float)
    (nsteps : Z)                                 (* "rank .. epoch ../.. loss .. acc .. steps" *)
| MsgMaxsteps (nsteps cap : Z)                   (* "finished training (maxsteps)" steps maxsteps *)
| MsgFinished (nsteps : Z).                      (* "finished Training" steps *)

Inductive event : Type :=
| EvResnet50Cuda (pretrained : bool)             (* resnet50(pretrained=..).cuda() *)
| EvDistributedDataParallel                      (* DistributedDataParallel(model) *)
| EvCrossEntropyLoss                             (* nn.CrossEntropyLoss() *)
| EvSGD (sgd_lr : float) (sgd_momentum : option float)
                                                 (* torch.optim.SGD(params, lr=.., [momentum=..]) *)
| EvZeroGrad                                     (* optimizer.zero_grad() *)
| EvForward (data : Batch)                       (* model(inputs), loss_fn(outputs, labels) *)
| EvBackward                                     (* loss.backward() *)
| EvOptimizerStep                                (* optimizer.step() *)
| EvPrint (out : stream) (m : message)
| EvInitProcessGroup (be : string) (r n : Z).    (* dist.init_process_group(backend, rank, world_size) *)

Record Process : Type := {
  environ : gmap string string;     (* os.environ *)
  trace : list event;               (* external calls so far, oldest first *)
  ticks : nat                       (* number of time.time() calls so far *)
}.

Definition emit (e : event) (p : Process) : Process :=
  {| environ := environ p; trace := trace p ++ [e]; ticks := ticks p |}.

Definition setenv (k v : string) (p : Process) : Process :=
  {| environ := <[k := v]> (environ p); trace := trace p; ticks := ticks p |}.

(** One call of [time.time()] has been made. *)
Definition tick (p : Process) : Process :=
  {| environ := environ p; trace := trace p; ticks := S (ticks p) |}.

(** ** Cell 9: train *)

(** How a loop body ends: it falls through to the next turn, or the
    enclosing function executes [return]. *)
Inductive flow : Type := Continue | Returned.

Fixpoint for_each {X S : Type} (body : S -> X -> flow * S) (s : S) (xs : list X)
    : flow * S :=
  match xs with
  | [] => (Continue, s)
  | x :: rest =>
      match body s x with
      | (Continue, s') => for_each body s' rest
      | (Returned, s') => (Returned, s')
      end
  end.

(** The locals of [train] that change in the loop. *)
Record train_vars : Type := {
  losses : list float;              (* deque(maxlen=100) *)
  accuracies : list float;          (* deque(maxlen=100) *)
  steps : Z
}.

Definition average (d : list float) : float :=
  (fsum d / float_of_nat (length d))%float.

(** The body of the inner loop, for one yielded [(i, data, verbose)]. *)
Definition train_body (config : Config) (epoch : Z) (s : Process * train_vars)
    (y : nat * Batch * bool) : flow * (Process * train_vars) :=
  let '(p, v) := s in
  let '(i, data, verbose) := y in
  let p := tick p in
  let p := emit EvZeroGrad p in
  let p := emit (EvForward data) p in
  let losses' := deque_append 100 (loss_item data) (losses v) in
  let accuracies' := deque_append 100 (accuracy_item data) (accuracies v) in
  let p :=
    if verbose && (0 <? length losses')%nat
    then emit (EvPrint stderr
                 (MsgReport (rank config) epoch i (average losses')
                    (average accuracies') (steps v))) p
    else p in
  let p := emit EvBackward p in
  let p := emit EvOptimizerStep p in
  let steps' := steps v + Z.of_nat (length (labels data)) in
  let v' := {| losses := losses'; accuracies := accuracies'; steps := steps' |} in
  if steps' >? maxsteps config
  then (Returned, (emit (EvPrint stderr (MsgMaxsteps steps' (maxsteps config))) p, v'))
  else (Continue, (p, v')).

(** One epoch: [for i, data, verbose in enumerate_report(trainloader,
    config.report_s)].  The generator's k-th clock reading is the process's
    next one but k. *)
Definition train_epoch (w : World) (config : Config) (trainloader : DataLoader)
    (s : Process * train_vars) (epoch : Z) : flow * (Process * train_vars) :=
  for_each (train_body config epoch) s
    (enumerate_report (fun k => clock w (ticks (fst s) + k)%nat)
       (loader_pass w trainloader (Z.to_nat epoch))
       (report_s config) growth_default).

Definition train (w : World) (config : Config) (p : Process)
    : result unit * Process :=
  let p := emit (EvResnet50Cuda false) p in
  let p := match rank config with
           | Some _ => emit EvDistributedDataParallel p
           | None => p
           end in
  let p := emit EvCrossEntropyLoss p in
  let p := emit (EvSGD (lr config) None) p in
  match make_dataloader w "train" with
  | Raise e => (Raise e, p)
  | Return trainloader =>
      let v := {| losses := []; accuracies := []; steps := 0 |} in
      match for_each (train_epoch w config trainloader) (p, v)
              (range (epochs config)) with
      | (Returned, (p', _)) => (Return tt, p')
      | (Continue, (p', v')) =>
          (Return tt, emit (EvPrint stdout (MsgFinished (steps v'))) p')
      end
  end.

(** ** Cell 12: train_on_ray

<<
@ray.remote(num_gpus=1)
def train_on_ray(rank, config):
    if rank is not None:
        os.environ['MASTER_ADDR'] = config.master_addr
        os.environ['MASTER_PORT'] = config.master_port
        dist.init_process_group(backend=config.backend, rank=rank, world_size=config.world_size)
        config.rank = rank
    train(config)
>>
    The function mutates the [config] object it was given; the embedding
    returns that object's final value next to the process. *)

Definition train_on_ray (w : World) (rank0 : option Z) (config : Config)
    (p : Process) : result unit * Config * Process :=
  match rank0 with
  | Some r =>
      let p := setenv "MASTER_ADDR" (master_addr config) p in
      let p := setenv "MASTER_PORT" (master_port config) p in
      let p := emit (EvInitProcessGroup (backend config) r (world_size config)) p in
      let config := set_rank (Some r) config in
      let '(res, p) := train w config p in
      (res, config, p)
  | None =>
      let '(res, p) := train w config p in
      (res, config, p)
  end.

(** ** Cell 13: distributed_training

<<
def distributed_training(config):
    num_gpus = ray.available_resources()['GPU']
    config.world_size = min(config.world_size, num_gpus)
    results = ray.get([train_on_ray.remote(i, config) for i in range(config.world_size)])
    print(results)
>>
    [ray.available_resources()] is a dict from resource names to floats
    (a machine with two GPUs reports ['GPU': 2.0]); subscripting it with a
    missing key raises KeyError.  [min(a, b)] returns [b] when [b < a] and
    [a] otherwise, so the minimum of the int [config.world_size] and a
    smaller GPU count is that float, and [range] of a float raises
    TypeError.  Each remote task runs in a worker process of its own, on
    its own copy of the arguments. *)

(** [x < n] for a float [x] and an int [n]; Python compares the two
    exactly, without rounding [n]. *)
Definition float_lt_int (x : float) (n : Z) : bool :=
  match Prim2SF x with
  | S754_nan => false
  | S754_infinity s => s
  | S754_zero _ => 0 <? n
  | S754_finite s m e =>
      let v := if s then Z.neg m else Z.pos m in
      if 0 <=? e then v * 2 ^ e <? n else v <? n * 2 ^ (- e)
  end.

Record Cluster : Type := {
  resources : gmap string float;    (* ray.available_resources() *)
  worker_world : Z -> World;        (* what the worker of task i observes *)
  worker_process : Z -> Process     (* the state that worker starts in *)
}.

Record Launch : Type := {
  driver_config : Config;                          (* config after the call *)
  remote_calls : list (Z * Config);                (* arguments of each .remote(..) *)
  remote_runs : list (result unit * Config * Process);  (* how each task ran *)
  printed : list (result unit)                     (* print(results) *)
}.

(** How a call of [distributed_training] ends. *)
Inductive launch_result : Type :=
| LaunchKeyError (key : string)
    (* ray.available_resources()['GPU'] found no such key; config untouched *)
| LaunchTypeError (config : Config) (size : float)
    (* config.world_size was set to the float [size] ([config] holds the
       other fields), and range(config.world_size) raised TypeError *)
| Launched (l : Launch).

Definition distributed_training (c : Cluster) (config : Config) : launch_result :=
  match resources c !! "GPU"%string with
  | None => LaunchKeyError "GPU"
  | Some num_gpus =>
      if float_lt_int num_gpus (world_size config)
      then LaunchTypeError config num_gpus
      else
        (* min returned config.world_size itself: the assignment changes nothing *)
        let calls := map (fun i => (i, config)) (range (world_size config)) in
        let runs :=
          map (fun a => train_on_ray (worker_world c (fst a)) (Some (fst a)) (snd a)
                          (worker_process c (fst a))) calls in
        Launched {| driver_config := config;
                    remote_calls := calls;
                    remote_runs := runs;
                    printed := map (fun run => fst (fst run)) runs |}
  end.

(** ** The notebook as written

    The statements of the code cells, in the order of the cells, as a
    syntax tree.  Compound statements keep their structure.  Expressions
    are kept as written (string literals with single quotes), except the
    ones [make_dataloader] is made of, which are kept as terms.  Comments
    are not statements and are left out. *)

Inductive expr : Type :=
| e_src (text : string)                (* an expression, as written *)
| e_name_eq (name literal : string)    (* name == 'literal' *)
| e_call (f : string)                  (* f() *)
| e_fstring (prefix name : string).    (* f'prefix{name}' *)

#[local] Set Warnings "-register-all".
Inductive stmt : Type :=
| s_import (text : string)
| s_doc (text : string)                                  (* a docstring *)
| s_assign (target : string) (value : expr)              (* target = value *)
| s_aug (target op : string) (value : expr)              (* target op value *)
| s_ann (target annotation : string) (value : expr)      (* target: annotation = value *)
| s_expr (e : expr)
| s_return (value : option expr)
| s_yield (value : expr)
| s_raise (exc : string) (arg : expr)                    (* raise exc(arg) *)
| s_assert (test : expr)
| s_if (test : expr) (body orelse : list stmt)           (* elif: an if in orelse *)
| s_for (target : string) (iter : expr) (body : list stmt)
| s_while (test : expr) (body : list stmt)
| s_with (items : string) (body : list stmt)
| s_try (body handlers orelse finalbody : list stmt)
| s_except (exc : string) (body : list stmt)             (* a handler of a try *)
| s_def (decorators : list string) (name params : string) (body : list stmt)
| s_class (decorators : list string) (name : string) (body : list stmt).
#[local] Set Warnings "register-all".

Definition cell_1 : list stmt :=
  [ s_import "import os";
    s_import "import sys";
    s_import "import torch";
    s_import "import torch.nn as nn";
    s_import "import torch.distributed as dist";
    s_import "from torch.nn.parallel import DistributedDataParallel";
    s_import "from torchvision.models import resnet50";
    s_import "from torchvision import datasets, transforms";
    s_import "import ray";
    s_import "import webdataset as wds";
    s_import "import dataclasses";
    s_import "import time";
    s_import "from collections import deque";
    s_import "from typing import Optional";
    s_def [] "enumerate_report" "seq, delta, growth=1.0"
      [ s_assign "last" (e_src "0");
        s_assign "count" (e_src "0");
        s_for "count, item" (e_src "enumerate(seq)")
          [ s_assign "now" (e_src "time.time()");
            s_if (e_src "now - last > delta")
              [ s_assign "last" (e_src "now");
                s_yield (e_src "count, item, True") ]
              [ s_yield (e_src "count, item, False") ];
            s_aug "delta" "*=" (e_src "growth") ] ] ]%string.

Definition cell_3 : list stmt :=
  [ s_assign "bucket" (e_src "'https://storage.googleapis.com/webdataset/fake-imagenet'");
    s_assign "trainset_url" (e_src "bucket+'/imagenet-train-{000000..001281}.tar'");
    s_assign "valset_url" (e_src "bucket+'/imagenet-val-{000000..000049}.tar'");
    s_assign "batch_size" (e_src "32") ]%string.

Definition cell_4 : list stmt :=
  [ s_if (e_src "'google.colab' in sys.modules")
      [ s_assign "cache_dir" (e_src "None");
        s_expr (e_src "print('running on colab, streaming data directly from storage')") ]
      [ s_assign "cache_dir" (e_src "'./_cache'");
        s_expr (e_src "print(f'not running in colab, caching data locally in {cache_dir}')") ]
  ]%string.

Definition cell_5 : list stmt :=
  [ s_def [] "make_dataloader_train" ""
      [ s_doc "Create a DataLoader for training on the ImageNet dataset using WebDataset.";
        s_assign "transform"
          (e_src "transforms.Compose([transforms.RandomResizedCrop(224), transforms.RandomHorizontalFlip(), transforms.ToTensor(),])");
        s_def [] "make_sample" "sample"
          [ s_return (Some (e_src "transform(sample['jpg']), sample['cls']")) ];
        s_assign "trainset"
          (e_src "wds.WebDataset(trainset_url, resampled=True, cache_dir=cache_dir)");
        s_assign "trainset" (e_src "trainset.shuffle(1000).decode('pil').map(make_sample)");
        s_assign "trainset" (e_src "trainset.batched(64)");
        s_assign "trainloader" (e_src "wds.WebLoader(trainset, batch_size=None, num_workers=4)");
        s_assign "trainloader"
          (e_src "trainloader.unbatched().shuffle(1000).batched(batch_size)");
        s_assign "trainloader" (e_src "trainloader.with_epoch(1282 * 100 // 64)");
        s_return (Some (e_src "trainloader")) ] ]%string.

Definition cell_6 : list stmt :=
  [ s_def [] "make_dataloader" "split='train'"
      [ s_doc "Make a dataloader for training or validation.";
        s_if (e_name_eq "split" "train")
          [ s_return (Some (e_call "make_dataloader_train")) ]
          [ s_if (e_name_eq "split" "val")
              [ s_return (Some (e_call "make_dataloader_val")) ]
              [ s_raise "ValueError" (e_fstring "unknown split " "split") ] ] ];
    s_assign "os.environ['GOPEN_VERBOSE']" (e_src "'1'");
    s_assign "sample" (e_src "next(iter(make_dataloader()))");
    s_expr (e_src "print(sample[0].shape, sample[1].shape)");
    s_assign "os.environ['GOPEN_VERBOSE']" (e_src "'0'") ]%string.

Definition cell_8 : list stmt :=
  [ s_class ["dataclasses.dataclass"] "Config"
      [ s_ann "epochs" "int" (e_src "1");
        s_ann "maxsteps" "int" (e_src "int(1e18)");
        s_ann "lr" "float" (e_src "0.001");
        s_ann "momentum" "float" (e_src "0.9");
        s_ann "rank" "Optional[int]" (e_src "None");
        s_ann "world_size" "int" (e_src "2");
        s_ann "backend" "str" (e_src "'nccl'");
        s_ann "master_addr" "str" (e_src "'localhost'");
        s_ann "master_port" "str" (e_src "'12355'");
        s_ann "report_s" "float" (e_src "15.0");
        s_ann "report_growth" "float" (e_src "1.1") ] ]%string.

Definition cell_9 : list stmt :=
  [ s_def [] "train" "config"
      [ s_assign "model" (e_src "resnet50(pretrained=False).cuda()");
        s_if (e_src "config.rank is not None")
          [ s_assign "model" (e_src "DistributedDataParallel(model)") ]
          [];
        s_assign "loss_fn" (e_src "nn.CrossEntropyLoss()");
        s_assign "optimizer" (e_src "torch.optim.SGD(model.parameters(), lr=config.lr)");
        s_assign "trainloader" (e_src "make_dataloader(split='train')");
        s_assign "losses, accuracies, steps" (e_src "deque(maxlen=100), deque(maxlen=100), 0");
        s_for "epoch" (e_src "range(config.epochs)")
          [ s_for "i, data, verbose" (e_src "enumerate_report(trainloader, config.report_s)")
              [ s_assign "inputs, labels" (e_src "data[0].cuda(), data[1].cuda()");
                s_expr (e_src "optimizer.zero_grad()");
                s_assign "outputs" (e_src "model(inputs)");
                s_assign "loss" (e_src "loss_fn(outputs, labels)");
                s_assign "accuracy" (e_src "(outputs.argmax(1) == labels).float().mean()");
                s_expr (e_src "losses.append(loss.item())");
                s_expr (e_src "accuracies.append(accuracy.item())");
                s_if (e_src "verbose and len(losses) > 0")
                  [ s_assign "avgloss" (e_src "sum(losses)/len(losses)");
                    s_assign "avgaccuracy" (e_src "sum(accuracies)/len(accuracies)");
                    s_expr (e_src "print(f'rank {config.rank} epoch {epoch:5d}/{i:9d} loss {avgloss:8.3f} acc {avgaccuracy:8.3f} {steps:9d}', file=sys.stderr)") ]
                  [];
                s_expr (e_src "loss.backward()");
                s_expr (e_src "optimizer.step()");
                s_aug "steps" "+=" (e_src "len(labels)");
                s_if (e_src "steps > config.maxsteps")
                  [ s_expr (e_src "print('finished training (maxsteps)', steps, config.maxsteps, file=sys.stderr)");
                    s_return None ]
                  [] ] ];
        s_expr (e_src "print('finished Training', steps)") ] ]%string.

Definition cell_10 : list stmt :=
  [ s_assign "config" (e_src "Config()");
    s_assign "config.epochs" (e_src "1");
    s_assign "config.maxsteps" (e_src "1000");
    s_expr (e_src "train(config)") ]%string.

Definition cell_12 : list stmt :=
  [ s_def ["ray.remote(num_gpus=1)"] "train_on_ray" "rank, config"
      [ s_doc "Set up distributed torch env and train the model on this node.";
        s_if (e_src "rank is not None")
          [ s_assign "os.environ['MASTER_ADDR']" (e_src "config.master_addr");
            s_assign "os.environ['MASTER_PORT']" (e_src "config.master_port");
            s_expr (e_src "dist.init_process_group(backend=config.backend, rank=rank, world_size=config.world_size)");
            s_assign "config.rank" (e_src "rank") ]
          [];
        s_expr (e_src "train(config)") ] ]%string.

Definition cell_13 : list stmt :=
  [ s_if (e_src "not ray.is_initialized()")
      [ s_expr (e_src "ray.init()") ]
      [];
    s_expr (e_src "ray.available_resources()['GPU']");
    s_def [] "distributed_training" "config"
      [ s_doc "Perform distributed training with the given config.";
        s_assign "num_gpus" (e_src "ray.available_resources()['GPU']");
        s_assign "config.world_size" (e_src "min(config.world_size, num_gpus)");
        s_assign "results"
          (e_src "ray.get([train_on_ray.remote(i, config) for i in range(config.world_size)])");
        s_expr (e_src "print(results)") ];
    s_assign "config" (e_src "Config()");
    s_assign "config.epochs" (e_src "3");
    s_expr (e_src "distributed_training(config)") ]%string.

(** The code cells of the notebook (cells 0, 2, 7 and 11 are text). *)
Definition notebook : list stmt :=
  cell_1 ++ cell_3 ++ cell_4 ++ cell_5 ++ cell_6 ++ cell_8 ++ cell_9 ++ cell_10
  ++ cell_12 ++ cell_13.

(** Every statement of [s], [s] first, each with the function whose body
    it is in. *)
Fixpoint walk (scope : string) (s : stmt) : list (string * stmt) :=
  (scope, s) ::
  match s with
  | s_if _ body orelse =>
      List.flat_map (walk scope) body ++ List.flat_map (walk scope) orelse
  | s_for _ _ body | s_while _ body | s_with _ body | s_except _ body
  | s_class _ _ body => List.flat_map (walk scope) body
  | s_try body handlers orelse finalbody =>
      List.flat_map (walk scope) body ++ List.flat_map (walk scope) handlers
      ++ List.flat_map (walk scope) orelse ++ List.flat_map (walk scope) finalbody
  | s_def _ name _ body => List.flat_map (walk name) body
  | _ => []
  end.

Definition statements (cells : list stmt) : list (string * stmt) :=
  List.flat_map (walk "<module>") cells.

(** The statements with which Python code signals or handles an error. *)
Definition is_error_handling (s : stmt) : bool :=
  match s with
  | s_raise _ _ | s_assert _ | s_try _ _ _ _ | s_except _ _ => true
  | _ => false
  end.

Definition error_handling (cells : list stmt) : list (string * stmt) :=
  List.filter (fun x => is_error_handling (snd x)) (statements cells).

(** The parameters and the body of the top-level function [name]. *)
Fixpoint find_def (name : string) (cells : list stmt) : option (string * list stmt) :=
  match cells with
  | [] => None
  | s_def _ name' params body :: rest =>
      if String.eqb name' name then Some (params, body) else find_def name rest
  | _ :: rest => find_def name rest
  end.

(** Running the statements [make_dataloader] is made of, with the local
    string variables [env]: [Next] when control reaches the next
    statement, [Done] when the function returned or raised,
    [Unsupported] for any other statement. *)
Inductive outcome : Type :=
| Next
| Done (r : result DataLoader)
| Unsupported.

Fixpoint exec (w : World) (env : gmap string string) (s : stmt) : outcome :=
  let block :=
    fix block (l : list stmt) : outcome :=
      match l with
      | [] => Next
      | s' :: l' =>
          match exec w env s' with
          | Next => block l'
          | o => o
          end
      end in
  match s with
  | s_doc _ => Next
  | s_return (Some (e_call f)) => Done (call_loader w f)
  | s_raise exc (e_fstring prefix name) =>
      if String.eqb exc "ValueError" then
        match env !! name with
        | Some v => Done (Raise (ValueError (String.append prefix v)))
        | None => Done (Raise (NameError name))
        end
      else Unsupported
  | s_if (e_name_eq name literal) body orelse =>
      match env !! name with
      | Some v => if String.eqb v literal then block body else block orelse
      | None => Done (Raise (NameError name))
      end
  | _ => Unsupported
  end.

Fixpoint exec_block (w : World) (env : gmap string string) (l : list stmt) : outcome :=
  match l with
  | [] => Next
  | s :: l' =>
      match exec w env s with
      | Next => exec_block w env l'
      | o => o
      end
  end.

(** ** Vocabulary of the properties *)

Section ReportVocabulary.
Context {T : Type} `{Number T}.

(** The third components of what was yielded. *)
Definition flags_of {A : Type} (out : list (nat * A * bool)) : list bool :=
  map snd out.

(** The clock reading at the most recent element before [n] that was
    yielded with flag [True]; [0] when there is none. *)
Fixpoint last_flagged (flags : list bool) (clock : nat -> T) (n : nat) : T :=
  match n with
  | O => num_zero
  | S k => if nth k flags false then clock k else last_flagged flags clock k
  end.

(** [d] multiplied [n] times in succession by [g], as the loop does it:
    [((d * g) * g) * ... * g]. *)
Fixpoint interval_at (d g : T) (n : nat) : T :=
  match n with
  | O => d
  | S k => num_mul (interval_at d g k) g
  end.

End ReportVocabulary.

(** Modelled from the spec: [growth^n] for a float [growth], as the
    product of [n] factors.  (For the values used below Python's [**]
    gives the same binary64 number: [1.1 ** 3] is 1.3310000000000004.) *)
Fixpoint float_pow (g : float) (n : nat) : float :=
  match n with
  | O => 1%float
  | S k => (float_pow g k * g)%float
  end.

(** The batches that were run through the model, in order. *)
Definition forwarded (evs : list event) : list Batch :=
  omap (fun e => match e with EvForward b => Some b | _ => None end) evs.

(** Number of [optimizer.step()] calls. *)
Definition optimizer_steps (evs : list event) : nat :=
  length (List.filter (fun e => match e with EvOptimizerStep => true | _ => false end) evs).

(** [len(labels)] of a batch, and the running sum over a list of batches. *)
Definition batch_len (b : Batch) : Z := Z.of_nat (length (labels b)).

Definition samples (bs : list Batch) : Z :=
  foldr (fun b acc => batch_len b + acc) 0 bs.

(** Cumulative number of samples at the end of batch [k] of [bs]. *)
Definition samples_after (bs : list Batch) (k : nat) : Z :=
  samples (take (S k) bs).

(** The batches the loader delivers over the passes of [range(epochs)],
    one pass after the other. *)
Definition passes (w : World) (trainloader : DataLoader) (es : list Z) : list Batch :=
  concat (map (fun epoch => loader_pass w trainloader (Z.to_nat epoch)) es).

Definition train_stream (w : World) (config : Config) : list Batch :=
  passes w (make_dataloader_train w) (range (epochs config)).

(** What [train] does before its loop. *)
Definition train_prologue (config : Config) : list event :=
  [EvResnet50Cuda false]
  ++ match rank config with Some _ => [EvDistributedDataParallel] | None => [] end
  ++ [EvCrossEntropyLoss; EvSGD (lr config) None].

(** The (optional) progress line printed inside a batch. *)
Definition report_part (rep : list event) : Prop :=
  rep = [] ∨ ∃ r e i l a s, rep = [EvPrint stderr (MsgReport r e i l a s)].

(** [batch_blocks bs evs]: [evs] is, for each batch of [bs] in turn, the
    complete sequence zero_grad, forward, (progress line), backward,
    optimizer step. *)
Inductive batch_blocks : list Batch -> list event -> Prop :=
| blocks_nil : batch_blocks [] []
| blocks_snoc bs evs b rep :
    batch_blocks bs evs -> report_part rep ->
    batch_blocks (bs ++ [b])
      (evs ++ [EvZeroGrad; EvForward b] ++ rep ++ [EvBackward; EvOptimizerStep]).

(** The events a call of [train] adds to the process. *)
Definition train_events (w : World) (config : Config) (p : Process) : list event :=
  drop (length (trace p)) (trace (snd (train w config p))).

Definition is_maxsteps_message (e : event) : Prop :=
  ∃ o s c, e = EvPrint o (MsgMaxsteps s c).

Definition is_finished_message (e : event) : Prop :=
  ∃ o s, e = EvPrint o (MsgFinished s).

Definition is_init_process_group (e : event) : Prop :=
  ∃ be r n, e = EvInitProcessGroup be r n.

(** No batch of [bs] ends with the running sum above [cap]. *)
Definition below (cap : Z) (bs : list Batch) : Prop :=
  ∀ j, (j < length bs)%nat → samples_after bs j ≤ cap.

(** The second components of what [enumerate_report] yielded. *)
Definition items_of {A : Type} (out : list (nat * A * bool)) : list A :=
  map (fun y => snd (fst y)) out.

(** The process as [train] leaves it when it reaches its loop. *)
Definition after_prologue (config : Config) (p : Process) : Process :=
  {| environ := environ p; trace := trace p ++ train_prologue config;
     ticks := ticks p |}.

(** The loop that started in [p0] has completed the batches [done] and
    goes on. *)
Definition running (config : Config) (p0 : Process) (done : list Batch)
    (s : Process * train_vars) : Prop :=
  environ (fst s) = environ p0
  ∧ ticks (fst s) = (ticks p0 + length done)%nat
  ∧ steps (snd s) = samples done
  ∧ below (maxsteps config) done
  ∧ ∃ body, trace (fst s) = trace p0 ++ body ∧ batch_blocks done body.

(** The loop that started in [p0] has returned at the end of the last
    batch of [done], the first one to take the sum above the cap. *)
Definition stopped (config : Config) (p0 : Process) (done : list Batch)
    (p' : Process) : Prop :=
  environ p' = environ p0
  ∧ ∃ pre b body,
      done = pre ++ [b]
      ∧ below (maxsteps config) pre
      ∧ maxsteps config < samples done
      ∧ trace p' = trace p0 ++ body
                   ++ [EvPrint stderr (MsgMaxsteps (samples done) (maxsteps config))]
      ∧ batch_blocks done body.

(** The events of the loop body: zero_grad, forward, the progress line,
    backward, optimizer step. *)
Definition is_loop_event (e : event) : Prop :=
  match e with
  | EvZeroGrad | EvForward _ | EvBackward | EvOptimizerStep => True
  | EvPrint stderr (MsgReport _ _ _ _ _ _) => True
  | _ => False
  end.

(** ** Sample inputs *)

(** A batch of [n] images with the loss the notebook's first progress line
    shows. *)
Definition batch_of_size (n : nat) : Batch :=
  {| inputs := 0; labels := repeat 0 n;
     loss_item := 7.029%float; accuracy_item := 0%float |}.

(** A worker whose loader delivers [per_pass] batches of [size] images in
    every pass, with one second between clock readings. *)
Definition sample_world (per_pass size : nat) : World :=
  {| on_colab := false;
     clock := fun k => (1702400000 + float_of_nat k)%float;
     loader_pass := fun _ _ => repeat (batch_of_size size) per_pass |}.

Definition fresh_process : Process :=
  {| environ := ∅; trace := []; ticks := 0 |}.

(** A machine on which ray reports 16 CPUs and [gpus] GPUs. *)
Definition sample_cluster (gpus : float) : Cluster :=
  {| resources := {[ "CPU"%string := 16%float; "GPU"%string := gpus ]};
     worker_world := fun _ => sample_world 2 32;
     worker_process := fun _ => fresh_process |}.

(** A machine without GPUs: ray lists no 'GPU' resource at all. *)
Definition cpu_only_cluster : Cluster :=
  {| resources := {[ "CPU"%string := 16%float ]};
     worker_world := fun _ => sample_world 2 32;
     worker_process := fun _ => fresh_process |}.

(** ** More of the notebook *)

(** [make_sample], defined inside [make_dataloader_train]:
<<
    def make_sample(sample):
        return transform(sample["jpg"]), sample["cls"]
>>
    A sample is a dict from field names to decoded values; subscripting it
    with a missing key raises KeyError.  The tuple is built left to right. *)
Inductive sample_error : Type := KeyError (key : string).

Definition make_sample {V W : Type} (transform : V -> W) (sample : gmap string V)
    : sample_error + (W * V) :=
  match sample !! "jpg"%string with
  | None => inl (KeyError "jpg")
  | Some jpg =>
      let image := transform jpg in
      match sample !! "cls"%string with
      | None => inl (KeyError "cls")
      | Some cls => inr (image, cls)
      end
  end.

(** Cell 10, the smoke test:
<<
config = Config()
config.epochs = 1
config.maxsteps = 1000
train(config)
>> *)
Definition smoke_test_config : Config :=
  set_maxsteps 1000 (set_epochs 1 Config_default).

Definition smoke_test (w : World) (p : Process) : result unit * Process :=
  train w smoke_test_config p.

(** Cell 13, the distributed run:
<<
config = Config()
config.epochs = 3
distributed_training(config)
>> *)
Definition distributed_config : Config := set_epochs 3 Config_default.

Definition distributed_run (c : Cluster) : launch_result :=
  distributed_training c distributed_config.

(** ** Vocabulary of the further properties *)

(** The last [n] elements of a list: what a [deque(maxlen=n)] holds after
    the elements of [l] were appended one by one. *)
Definition recent {A : Type} (n : nat) (l : list A) : list A :=
  drop (length l - n) l.

(** What a progress line at position [n] of the events [evs] must carry:
    it follows the forward pass of a batch [b], which is batch [i] of the
    pass of epoch [e]; its two averages are over the last 100 batches run
    so far, [b] included; its counter is the sum over the batches before
    [b]. *)
Definition report_line_ok (w : World) (config : Config) (evs : list event)
    (n : nat) (m : message) : Prop :=
  match m with
  | MsgReport r e i l a s =>
      ∃ pre b,
        forwarded (take n evs) = pre ++ [b]
        ∧ r = rank config
        ∧ loader_pass w (make_dataloader_train w) (Z.to_nat e) !! i = Some b
        ∧ l = average (recent 100 (map loss_item (pre ++ [b])))
        ∧ a = average (recent 100 (map accuracy_item (pre ++ [b])))
        ∧ s = samples pre
  | _ => True
  end.

Definition reports_ok (w : World) (config : Config) (evs : list event) : Prop :=
  ∀ n o m, evs !! n = Some (EvPrint o m) → report_line_ok w config evs n m.

(** The state of [train], started in process [p0], after the batches
    [done]: the deques hold the last 100 values, the clock was read once
    per batch, and every progress line so far is as described. *)
Definition tracking (w : World) (config : Config) (p0 : Process)
    (done : list Batch) (s : Process * train_vars) : Prop :=
  environ (fst s) = environ p0
  ∧ ticks (fst s) = (ticks p0 + length done)%nat
  ∧ losses (snd s) = recent 100 (map loss_item done)
  ∧ accuracies (snd s) = recent 100 (map accuracy_item done)
  ∧ steps (snd s) = samples done
  ∧ ∃ evs, trace (fst s) = trace p0 ++ evs
           ∧ forwarded evs = done
           ∧ reports_ok w config evs.

(** Every yielded triple carries the element of [pass] at its index. *)
Definition indexed_in {A : Type} (pass : list A) (ys : list (nat * A * bool)) : Prop :=
  Forall (fun y => pass !! fst (fst y) = Some (snd (fst y))) ys.

(** ** enumerate_report: the loop, piece by piece *)

Section ReportLoop.
Context {T : Type} `{Number T} {A : Type}.
Implicit Types (clock : nat -> T) (seq : list A) (v : @report_vars T).
Implicit Types (item : A) (g d now : T).

Lemma report_loop_app clock g v c seq1 seq2 :
  report_loop clock g v c (seq1 ++ seq2) =
    (fst (report_loop clock g v c seq1) ++
     fst (report_loop clock g (snd (report_loop clock g v c seq1))
            (c + length seq1)%nat seq2),
     snd (report_loop clock g (snd (report_loop clock g v c seq1))
            (c + length seq1)%nat seq2)).
Proof.
  revert v c; induction seq1 as [|x seq1 IH]; intros v c; simpl.
  - rewrite Nat.add_0_r. by destruct (report_loop clock g v c seq2).
  - destruct (report_body g v c x (clock c)) as [y v'].
    rewrite IH. replace (S c + length seq1)%nat with (c + S (length seq1))%nat by lia.
    by destruct (report_loop clock g v' (S c) seq1).
Qed.

Lemma report_loop_length clock g v c seq :
  length (fst (report_loop clock g v c seq)) = length seq.
Proof.
  revert v c; induction seq as [|x seq IH]; intros v c; simpl; [done|].
  destruct (report_body g v c x (clock c)) as [y v'].
  specialize (IH v' (S c)).
  destruct (report_loop clock g v' (S c) seq); simpl in *. by rewrite IH.
Qed.

Lemma enumerate_report_length clock seq d g :
  length (enumerate_report clock seq d g) = length seq.
Proof. apply report_loop_length. Qed.

(** The element yielded at position [n] is the loop body run on the
    locals as they stand there. *)
Lemma enumerate_report_lookup clock seq d g n item :
  seq !! n = Some item →
  enumerate_report clock seq d g !! n =
    Some (fst (report_body g (report_vars_at clock seq d g n) n item (clock n))).
Proof.
  intros Hn. unfold enumerate_report, report_vars_at.
  rewrite <- (take_drop_middle seq n item Hn) at 1.
  rewrite report_loop_app. cbn [fst].
  assert (Hlen : length (take n seq) = n).
  { rewrite length_take. apply lookup_lt_Some in Hn. lia. }
  rewrite lookup_app_r; rewrite report_loop_length, Hlen; [|lia].
  rewrite Nat.sub_diag. cbn [report_loop]. simpl.
  destruct (report_body g _ n item (clock n)) as [y v'].
  by destruct (report_loop clock g v' (S n) (drop (S n) seq)).
Qed.

(** ... and the locals one element later are what the body leaves. *)
Lemma report_vars_at_S clock seq d g n item :
  seq !! n = Some item →
  report_vars_at clock seq d g (S n) =
    snd (report_body g (report_vars_at clock seq d g n) n item (clock n)).
Proof.
  intros Hn. unfold report_vars_at.
  rewrite (take_S_r seq n item Hn), report_loop_app. cbn [snd].
  assert (Hlen : length (take n seq) = n).
  { rewrite length_take. apply lookup_lt_Some in Hn. lia. }
  rewrite Hlen. simpl.
  by destruct (report_body g _ n item (clock n)) as [y v'].
Qed.

Lemma report_vars_at_0 clock seq d g :
  report_vars_at clock seq d g 0 = report_init d.
Proof. unfold report_vars_at. by rewrite take_0. Qed.

Lemma report_body_flag g v c item now :
  snd (fst (report_body g v c item now)) = num_gt (num_sub now (last v)) (delta v).
Proof. unfold report_body. by destruct (num_gt _ _). Qed.

Lemma report_body_yield g v c item now :
  fst (report_body g v c item now) =
    (c, item, num_gt (num_sub now (last v)) (delta v)).
Proof. unfold report_body. by destruct (num_gt _ _). Qed.

Lemma report_body_last g v c item now :
  last (snd (report_body g v c item now)) =
    if snd (fst (report_body g v c item now)) then now else last v.
Proof. unfold report_body. by destruct (num_gt _ _). Qed.

Lemma report_body_delta g v c item now :
  delta (snd (report_body g v c item now)) = num_mul (delta v) g.
Proof. unfold report_body. by destruct (num_gt _ _). Qed.

Lemma enumerate_report_flag_nth clock seq d g n item :
  seq !! n = Some item →
  nth n (flags_of (enumerate_report clock seq d g)) false =
    snd (fst (report_body g (report_vars_at clock seq d g n) n item (clock n))).
Proof.
  intros Hn. apply nth_lookup_Some with (d := false).
  unfold flags_of. rewrite list_lookup_fmap.
  by rewrite (enumerate_report_lookup _ _ _ _ _ _ Hn).
Qed.

(** The local [last] is the reading at the most recent flagged element. *)
Lemma report_vars_at_last clock seq d g n :
  (n <= length seq)%nat →
  last (report_vars_at clock seq d g n) =
    last_flagged (flags_of (enumerate_report clock seq d g)) clock n.
Proof.
  induction n as [|n IH]; intros Hn.
  - by rewrite report_vars_at_0.
  - destruct (lookup_lt_is_Some_2 seq n) as [item Hitem]; [lia|].
    rewrite (report_vars_at_S _ _ _ _ _ _ Hitem), report_body_last. simpl.
    rewrite (enumerate_report_flag_nth _ _ _ _ _ _ Hitem).
    rewrite IH by lia. done.
Qed.

End ReportLoop.

(** ** enumerate_report: the claims *)

Section ReportClaims.
Context {T : Type} `{Number T} {A : Type}.
Implicit Types (clock : nat -> T) (seq : list A) (d g : T).

(** The interval does not depend on the clock, hence not on the flags. *)
Lemma report_vars_at_delta_clock clock1 clock2 seq d g n :
  (n <= length seq)%nat →
  delta (report_vars_at clock1 seq d g n) = delta (report_vars_at clock2 seq d g n).
Proof.
  induction n as [|n IH]; intros Hn.
  - by rewrite !report_vars_at_0.
  - destruct (lookup_lt_is_Some_2 seq n) as [item Hitem]; [lia|].
    rewrite !(report_vars_at_S _ _ _ _ _ _ Hitem), !report_body_delta.
    by rewrite IH by lia.
Qed.

(** The interval is the initial one multiplied by [growth] once per
    element already yielded. *)
Lemma report_vars_at_delta_iter clock seq d g n :
  (n <= length seq)%nat →
  delta (report_vars_at clock seq d g n) = interval_at d g n.
Proof.
  induction n as [|n IH]; intros Hn.
  - by rewrite report_vars_at_0.
  - destruct (lookup_lt_is_Some_2 seq n) as [item Hitem]; [lia|].
    rewrite (report_vars_at_S _ _ _ _ _ _ Hitem), report_body_delta.
    by rewrite IH by lia.
Qed.

(** C1. For every sequence, initial interval [d], growth factor [g] and
    clock, [enumerate_report] yields exactly one triple per element, in
    order: the triple at position [n] is [(n, seq[n], flag)], where [flag]
    is [True] exactly when the reading [clock n] minus the reading
    recorded at the most recent element flagged [True] (0 when there is
    none) is greater than the current interval, which is [d] multiplied
    [n] times by [g] ([d] itself at the first element).  The recorded
    reading is the generator's local [last]; it changes only at an element
    that is flagged [True], where it becomes that element's reading. *)
Theorem enumerate_report_yields clock seq d g :
  let out := enumerate_report clock seq d g in
  let vars := report_vars_at clock seq d g in
  length out = length seq ∧
  ∀ n item, seq !! n = Some item →
    out !! n =
      Some (n, item,
            num_gt (num_sub (clock n) (last_flagged (flags_of out) clock n))
                   (interval_at d g n))
    ∧ delta (vars n) = interval_at d g n
    ∧ last (vars n) = last_flagged (flags_of out) clock n
    ∧ last (vars (S n)) =
        (if nth n (flags_of out) false then clock n else last (vars n)).
Proof.
  intros out vars. split; [apply enumerate_report_length|].
  intros n item Hn.
  assert (Hle : (n <= length seq)%nat) by (apply lookup_lt_Some in Hn; lia).
  pose proof (report_vars_at_last clock seq d g n Hle) as Hlast.
  pose proof (report_vars_at_delta_iter clock seq d g n Hle) as Hdelta.
  split; [|split; [exact Hdelta|split; [exact Hlast|]]].
  - subst out vars. rewrite (enumerate_report_lookup _ _ _ _ _ _ Hn).
    by rewrite report_body_yield, <- Hlast, <- Hdelta.
  - subst out vars.
    rewrite (report_vars_at_S _ _ _ _ _ _ Hn), report_body_last.
    by rewrite (enumerate_report_flag_nth _ _ _ _ _ _ Hn).
Qed.

End ReportClaims.

(** *** The interval in exact and in rounded arithmetic *)

(** With Python ints nothing is rounded: the repeated product is the
    closed form. *)
Lemma interval_at_Z (d g : Z) (n : nat) :
  interval_at (T := Z) d g n = d * g ^ Z.of_nat n.
Proof.
  induction n as [|n IH]; [simpl; lia|].
  cbn [interval_at]. rewrite IH. cbn [num_mul Z_Number].
  rewrite Nat2Z.inj_succ, Z.pow_succ_r by lia. lia.
Qed.

(** Multiplying a binary64 value by [1.0] returns it unchanged, for every
    value (zeros, subnormals, infinities and NaN included): the exact
    product is representable, so nothing is rounded. *)
Lemma Prim2SF_one : Prim2SF 1%float = S754_finite false 4503599627370496 (-52).
Proof. reflexivity. Qed.

Lemma SF64mul_one_r (x : spec_float) :
  valid_binary x = true →
  SF64mul x (S754_finite false 4503599627370496 (-52)) = x.
Proof.
  destruct x as [sx|sx| |sx mx ex]; intros Hvalid.
  - simpl. by rewrite xorb_false_r.
  - simpl. by rewrite xorb_false_r.
  - reflexivity.
  - unfold SF64mul, SFmul. rewrite xorb_false_r.
    unfold valid_binary, SpecFloat.valid_binary, bounded, canonical_mantissa in Hvalid.
    apply andb_true_iff in Hvalid as [Hcanon Hbound].
    apply Z.eqb_eq in Hcanon.
    rewrite Pos.mul_comm.
    change (4503599627370496 * mx)%positive with (Pos.iter xO mx 52).
    unfold binary_round_aux, shr_fexp.
    assert (Hdigits : Zdigits2 (Z.pos (Pos.iter xO mx 52))
                      = Z.pos (digits2_pos mx) + 52) by (cbn; lia).
    rewrite Hdigits.
    replace (Z.pos (digits2_pos mx) + 52 + (ex + -52))
      with (Z.pos (digits2_pos mx) + ex) by lia.
    rewrite Hcanon.
    replace (ex - (ex + -52)) with 52 by lia.
    cbn [shr shr_record_of_loc].
    assert (Hshift : SpecFloat.iter_pos shr_1 52
              {| shr_m := Z.pos (Pos.iter xO mx 52); shr_r := false; shr_s := false |}
            = {| shr_m := Z.pos mx; shr_r := false; shr_s := false |}) by reflexivity.
    rewrite Hshift. cbn [shr_m loc_of_shr_record round_nearest_even Zdigits2].
    replace (ex + -52 + 52) with ex by lia.
    rewrite Hcanon, Z.sub_diag. cbn [shr shr_m]. by rewrite Hbound.
Qed.

Lemma float_mul_one_r (x : float) : (x * 1)%float = x.
Proof.
  apply Prim2SF_inj. rewrite mul_spec, Prim2SF_one.
  apply SF64mul_one_r, Prim2SF_valid.
Qed.

Lemma interval_at_growth_default (d : float) (n : nat) :
  interval_at (T := float) d growth_default n = d.
Proof.
  induction n as [|n IH]; [done|].
  cbn [interval_at]. rewrite IH. apply float_mul_one_r.
Qed.

(** C9, as the code has it. [delta] is multiplied by [growth] after every
    yielded element, whatever its flag: the interval one element later is
    the interval times [growth], and it is the same under any two clocks.
    Hence the interval in force at element [n] is [delta] multiplied [n]
    times in succession by [growth], each product rounded as the numbers'
    arithmetic rounds it.  For ints, where nothing is rounded, that is
    [delta * growth^n]; for floats it need not be.  With the default
    [growth = 1.0] and a float [delta] it stays [delta] throughout. *)
Theorem enumerate_report_interval :
  (∀ (T : Type) (HT : Number T) (A : Type) (clock : nat -> T) (seq : list A) (d g : T),
     (∀ n item, seq !! n = Some item →
        delta (report_vars_at clock seq d g (S n)) =
          num_mul (delta (report_vars_at clock seq d g n)) g)
     ∧ (∀ clock' n, (n <= length seq)%nat →
          delta (report_vars_at clock' seq d g n) = delta (report_vars_at clock seq d g n))
     ∧ (∀ n, (n <= length seq)%nat →
          delta (report_vars_at clock seq d g n) = interval_at d g n))
  ∧ (∀ (A : Type) (clock : nat -> Z) (seq : list A) (d g : Z) (n : nat),
       (n <= length seq)%nat →
       delta (report_vars_at (T := Z) clock seq d g n) = d * g ^ Z.of_nat n)
  ∧ (∀ (A : Type) (clock : nat -> float) (seq : list A) (d : float) (n : nat),
       (n <= length seq)%nat →
       delta (report_vars_at (T := float) clock seq d growth_default n) = d).
Proof.
  split; [|split].
  - intros T HT A clock seq d g. split; [|split].
    + intros n item Hn.
      by rewrite (report_vars_at_S _ _ _ _ _ _ Hn), report_body_delta.
    + intros clock' n Hn. by apply report_vars_at_delta_clock.
    + intros n Hn. by apply report_vars_at_delta_iter.
  - intros A clock seq d g n Hn.
    rewrite report_vars_at_delta_iter by done. apply interval_at_Z.
  - intros A clock seq d n Hn.
    rewrite report_vars_at_delta_iter by done. apply interval_at_growth_default.
Qed.

(** C9 as stated fails for floats: with [delta = 15.0] and [growth = 1.1]
    the interval at element 3 is [((15.0 * 1.1) * 1.1) * 1.1 =
    19.965000000000003], while [15.0 * 1.1 ** 3 = 15.0 * 1.3310000000000004
    = 19.965000000000007]. *)
Lemma enumerate_report_interval_float_rounding :
  delta (report_vars_at (T := float) (fun _ => 0%float) ["a"; "b"; "c"]%string
           15%float 1.1%float 3)
  = 19.965000000000003%float
  ∧ float_pow 1.1%float 3 = 1.3310000000000004%float
  ∧ (15 * float_pow 1.1%float 3)%float = 19.965000000000007%float
  ∧ delta (report_vars_at (T := float) (fun _ => 0%float) ["a"; "b"; "c"]%string
             15%float 1.1%float 3)
    ≠ (15 * float_pow 1.1%float 3)%float.
Proof.
  split; [vm_compute; reflexivity|]. split; [vm_compute; reflexivity|].
  split; [vm_compute; reflexivity|].
  intros Heq. apply (f_equal Prim2SF) in Heq. vm_compute in Heq. discriminate Heq.
Qed.

(** A run on three elements with integer seconds: the reading 20 exceeds
    0 by more than 15, the reading 30 does not exceed 20 by more than 30,
    the reading 100 exceeds 20 by more than 60. *)
Example enumerate_report_Z :
  enumerate_report (T := Z) (fun k => nth k [20; 30; 100] 0) ["a"; "b"; "c"]%string 15 2
  = [(0%nat, "a", true); (1%nat, "b", false); (2%nat, "c", true)]%string.
Proof. reflexivity. Qed.

(** The same with binary64 readings and the default growth. *)
Example enumerate_report_float :
  enumerate_report (T := float) (fun k => nth k [20.5; 30; 36]%float 0%float)
    ["a"; "b"; "c"]%string 15%float growth_default
  = [(0%nat, "a", true); (1%nat, "b", false); (2%nat, "c", true)]%string.
Proof. vm_compute. reflexivity. Qed.

(** With the default growth the interval stays at its initial 15.0. *)
Example enumerate_report_float_interval :
  delta (report_vars_at (T := float) (fun k => nth k [20.5; 30; 36]%float 0%float)
           ["a"; "b"; "c"]%string 15%float growth_default 3)
  = 15%float.
Proof. vm_compute. reflexivity. Qed.

Lemma enumerate_report_yields_witness :
  enumerate_report (T := Z) (fun k => nth k [20; 30; 100] 0) ["a"; "b"; "c"]%string 15 2 !! 2%nat
  = Some (2%nat, "c"%string, true).
Proof.
  destruct (enumerate_report_yields (T := Z) (fun k => nth k [20; 30; 100] 0)
              ["a"; "b"; "c"]%string 15 2) as [_ Hy].
  destruct (Hy 2%nat "c"%string eq_refl) as [Hout _].
  rewrite Hout. reflexivity.
Defined.

Lemma enumerate_report_interval_witness :
  delta (report_vars_at (T := Z) (fun k => nth k [20; 30; 100] 0)
           ["a"; "b"; "c"]%string 15 2 3) = 15 * 2 ^ 3.
Proof.
  destruct enumerate_report_interval as (_ & Hint & _).
  rewrite (Hint string (fun k => nth k [20; 30; 100] 0) ["a"; "b"; "c"]%string 15 2 3%nat);
    [reflexivity | simpl; lia].
Defined.

(** ** make_dataloader and Config *)

Lemma notebook_globals_train (w : World) :
  notebook_globals w !! "make_dataloader_train"%string
  = Some (PyLoaderFunction (make_dataloader_train w)).
Proof. reflexivity. Qed.

Lemma notebook_globals_val (w : World) :
  notebook_globals w !! "make_dataloader_val"%string = None.
Proof. reflexivity. Qed.

Lemma make_dataloader_train_ok (w : World) :
  make_dataloader w "train" = Return (make_dataloader_train w).
Proof. unfold make_dataloader, call_loader. by rewrite notebook_globals_train. Qed.

Lemma make_dataloader_val_raises (w : World) :
  make_dataloader w "val" = Raise (NameError "make_dataloader_val").
Proof. unfold make_dataloader, call_loader. by rewrite notebook_globals_val. Qed.

Lemma make_dataloader_other (w : World) (split : string) :
  split ≠ "train"%string → split ≠ "val"%string →
  make_dataloader w split = Raise (ValueError (String.append "unknown split " split)).
Proof.
  intros Ht Hv. unfold make_dataloader.
  apply String.eqb_neq in Ht, Hv. by rewrite Ht, Hv.
Qed.

(** C8. ["val"] is accepted by the split test, yet [make_dataloader("val")]
    returns no loader: the name [make_dataloader_val] is bound nowhere in
    the notebook, so the call raises NameError. *)
Theorem make_dataloader_val_undefined (w : World) :
  notebook_globals w !! "make_dataloader_val"%string = None
  ∧ make_dataloader w "val" = Raise (NameError "make_dataloader_val")
  ∧ (∀ d, make_dataloader w "val" ≠ Return d)
  ∧ (∀ msg, make_dataloader w "val" ≠ Raise (ValueError msg)).
Proof.
  rewrite make_dataloader_val_raises.
  split; [apply notebook_globals_val|]. split; [done|]. split; by intros.
Qed.

(** C4. [Config] has exactly the eleven fields epochs, maxsteps, lr,
    momentum, rank, world_size, backend, master_addr, master_port, report_s
    and report_growth (a record is determined by them), and [Config()] has
    epochs=1, maxsteps=10^18, lr=0.001, momentum=0.9, rank=None,
    world_size=2, backend="nccl", master_addr="localhost",
    master_port="12355", report_s=15.0, report_growth=1.1. *)
Theorem Config_fields_and_defaults :
  (∀ c : Config,
     c = Build_Config (epochs c) (maxsteps c) (lr c) (momentum c) (rank c)
           (world_size c) (backend c) (master_addr c) (master_port c)
           (report_s c) (report_growth c))
  ∧ epochs Config_default = 1
  ∧ maxsteps Config_default = 10 ^ 18
  ∧ lr Config_default = 0.001%float
  ∧ momentum Config_default = 0.9%float
  ∧ rank Config_default = None
  ∧ world_size Config_default = 2
  ∧ backend Config_default = "nccl"%string
  ∧ master_addr Config_default = "localhost"%string
  ∧ master_port Config_default = "12355"%string
  ∧ report_s Config_default = 15.0%float
  ∧ report_growth Config_default = 1.1%float.
Proof.
  split; [by intros []|].
  repeat (split; [reflexivity|]). reflexivity.
Qed.

(** ** train: the loop, piece by piece *)

Lemma samples_app (bs1 bs2 : list Batch) :
  samples (bs1 ++ bs2) = samples bs1 + samples bs2.
Proof. induction bs1 as [|b bs1 IH]; simpl; [done|]. rewrite IH. lia. Qed.

Lemma samples_snoc (bs : list Batch) (b : Batch) :
  samples (bs ++ [b]) = samples bs + batch_len b.
Proof. rewrite samples_app. simpl. lia. Qed.

Lemma below_nil (cap : Z) : below cap [].
Proof. intros j Hj. simpl in Hj. lia. Qed.

Lemma below_snoc (cap : Z) (bs : list Batch) (b : Batch) :
  below cap bs → samples (bs ++ [b]) ≤ cap → below cap (bs ++ [b]).
Proof.
  intros Hbs Hb j Hj. rewrite length_app in Hj. simpl in Hj.
  unfold samples_after.
  destruct (decide (j < length bs)%nat) as [Hlt|Hge].
  - rewrite take_app_le by lia. by apply Hbs.
  - rewrite take_ge by (rewrite length_app; simpl; lia). done.
Qed.

Lemma below_prefix (cap : Z) (bs1 bs2 : list Batch) :
  below cap (bs1 ++ bs2) → below cap bs1.
Proof.
  intros H j Hj. specialize (H j). rewrite length_app in H.
  unfold samples_after in *. rewrite take_app_le in H by lia. apply H. lia.
Qed.

Lemma report_loop_items {T : Type} `{Number T} {A : Type}
    (clock : nat -> T) (g : T) (v : report_vars) (c : nat) (seq : list A) :
  items_of (fst (report_loop clock g v c seq)) = seq.
Proof.
  revert v c; induction seq as [|x seq IH]; intros v c; simpl; [done|].
  rewrite (surjective_pairing (report_body g v c x (clock c))).
  specialize (IH (snd (report_body g v c x (clock c))) (S c)).
  destruct (report_loop clock g _ (S c) seq) as [ys vf]. simpl in *.
  by rewrite report_body_yield, IH.
Qed.

Lemma enumerate_report_items {T : Type} `{Number T} {A : Type}
    (clock : nat -> T) (seq : list A) (d g : T) :
  items_of (enumerate_report clock seq d g) = seq.
Proof. apply report_loop_items. Qed.

Section TrainLoop.
Variables (w : World) (config : Config).

(** One batch: the locals advance by [len(labels)], the process gains one
    complete block, and the cap is tested once, after the block. *)
Lemma train_body_spec epoch p v i b verbose :
  ∃ rep v',
    report_part rep
    ∧ steps v' = steps v + batch_len b
    ∧ train_body config epoch (p, v) (i, b, verbose) =
        let evs := [EvZeroGrad; EvForward b] ++ rep ++ [EvBackward; EvOptimizerStep] in
        if steps v + batch_len b >? maxsteps config
        then (Returned,
              ({| environ := environ p;
                  trace := trace p ++ evs
                           ++ [EvPrint stderr
                                 (MsgMaxsteps (steps v + batch_len b) (maxsteps config))];
                  ticks := S (ticks p) |}, v'))
        else (Continue,
              ({| environ := environ p; trace := trace p ++ evs;
                  ticks := S (ticks p) |}, v')).
Proof.
  unfold train_body, emit, tick, batch_len. cbn [environ trace ticks].
  set (v' := {| losses := deque_append 100 (loss_item b) (losses v);
                accuracies := deque_append 100 (accuracy_item b) (accuracies v);
                steps := steps v + Z.of_nat (length (labels b)) |}).
  destruct (verbose && _) eqn:Hverb.
  - eexists [_], v'. split; [right; by repeat eexists|]. split; [reflexivity|].
    destruct (_ >? _); simpl; by rewrite <- ?app_assoc.
  - exists [], v'. split; [by left|]. split; [reflexivity|].
    destruct (_ >? _); simpl; by rewrite <- ?app_assoc.
Qed.

(** The inner loop over what [enumerate_report] yields. *)
Lemma train_inner epoch (ys : list (nat * Batch * bool)) p0 done s :
  running config p0 done s →
  match for_each (train_body config epoch) s ys with
  | (Continue, s') => running config p0 (done ++ items_of ys) s'
  | (Returned, s') =>
      ∃ k, (k < length ys)%nat
           ∧ stopped config p0 (done ++ take (S k) (items_of ys)) (fst s')
  end.
Proof.
  revert done s; induction ys as [|[[i b] verbose] ys IH]; intros done [p v] Hrun.
  - simpl. by rewrite app_nil_r.
  - destruct Hrun as (Henv & Hticks & Hsteps & Hbelow & body & Htrace & Hblocks).
    simpl in Henv, Hticks, Hsteps, Htrace.
    destruct (train_body_spec epoch p v i b verbose) as (rep & v' & Hrep & Hv' & Hbody).
    cbn [for_each]. rewrite Hbody. cbn zeta.
    destruct (steps v + batch_len b >? maxsteps config) eqn:Hcap.
    + exists 0%nat. split; [simpl; lia|]. cbn [fst snd environ items_of map firstn].
      split; [done|]. exists done, b, (body ++ [EvZeroGrad; EvForward b] ++ rep ++ [EvBackward; EvOptimizerStep]).
      rewrite samples_snoc, <- Hsteps.
      split; [done|]. split; [done|]. split; [lia|].
      split; [|by constructor].
      cbn [trace]. rewrite Htrace. by rewrite <- !app_assoc.
    + assert (Hrun' : running config p0 (done ++ [b])
                ({| environ := environ p;
                    trace := trace p ++ [EvZeroGrad; EvForward b] ++ rep
                             ++ [EvBackward; EvOptimizerStep];
                    ticks := S (ticks p) |}, v')).
      { split; [done|]. cbn [fst snd ticks trace].
        split; [rewrite length_app; simpl; lia|].
        split; [rewrite samples_snoc; lia|].
        split; [apply below_snoc; [done|rewrite samples_snoc; lia]|].
        exists (body ++ [EvZeroGrad; EvForward b] ++ rep ++ [EvBackward; EvOptimizerStep]).
        split; [rewrite Htrace; by rewrite <- !app_assoc | by constructor]. }
      specialize (IH _ _ Hrun').
      destruct (for_each _ _ ys) as [[|] s'].
      * cbn [items_of map]. by rewrite (cons_middle b), app_assoc.
      * destruct IH as (k & Hk & Hstop). exists (S k). split; [simpl; lia|].
        cbn [items_of map]. rewrite firstn_cons, (cons_middle b), app_assoc. done.
Qed.

(** The outer loop over [range(config.epochs)]. *)
Lemma train_epochs trainloader (es : list Z) p0 done s :
  running config p0 done s →
  match for_each (train_epoch w config trainloader) s es with
  | (Continue, s') => running config p0 (done ++ passes w trainloader es) s'
  | (Returned, s') =>
      ∃ done', done' `prefix_of` (done ++ passes w trainloader es)
               ∧ stopped config p0 done' (fst s')
  end.
Proof.
  revert done s; induction es as [|epoch es IH]; intros done s Hrun.
  - simpl. unfold passes. simpl. by rewrite app_nil_r.
  - cbn [for_each]. unfold train_epoch at 1.
    pose proof (train_inner epoch
      (enumerate_report (fun k => clock w (ticks (fst s) + k)%nat)
         (loader_pass w trainloader (Z.to_nat epoch)) (report_s config) growth_default)
      p0 done s Hrun) as Hin.
    rewrite enumerate_report_items in Hin.
    destruct (for_each (train_body config epoch) s _) as [[|] s'].
    + specialize (IH _ _ Hin).
      unfold passes in *. cbn [map concat]. rewrite app_assoc.
      destruct (for_each _ s' es) as [[|] s'']; done.
    + destruct Hin as (k & _ & Hstop).
      eexists. split; [|exact Hstop].
      unfold passes. cbn [map concat]. rewrite app_assoc.
      apply prefix_app_r, prefix_app, prefix_take.
Qed.

(** The whole of [train]: it never raises; it either works through the
    whole stream and prints the completion line, or stops at the end of
    the first batch that takes the sum above the cap. *)
Lemma train_outcome p :
  fst (train w config p) = Return tt
  ∧ ((∃ s', running config (after_prologue config p) (train_stream w config) s'
            ∧ snd (train w config p) =
                emit (EvPrint stdout (MsgFinished (samples (train_stream w config)))) (fst s'))
     ∨ (∃ done', done' `prefix_of` train_stream w config
                 ∧ stopped config (after_prologue config p) done' (snd (train w config p)))).
Proof.
  unfold train. rewrite make_dataloader_train_ok.
  set (p0 := emit (EvSGD (lr config) None) _).
  assert (Hp0 : p0 = after_prologue config p).
  { unfold p0, after_prologue, train_prologue, emit.
    destruct (rank config); simpl; f_equal; by rewrite <- !app_assoc. }
  assert (Hrun : running config p0 [] (p0, {| losses := []; accuracies := []; steps := 0 |})).
  { split; [done|]. split; [simpl; lia|]. split; [done|]. split; [apply below_nil|].
    exists []. split; [by rewrite app_nil_r | constructor]. }
  pose proof (train_epochs (make_dataloader_train w) (range (epochs config)) p0 [] _ Hrun) as H.
  rewrite app_nil_l in H.
  destruct (for_each _ _ (range (epochs config))) as [[|] [p' v']];
    rewrite Hp0 in H; simpl.
  - split; [done|]. left. exists (p', v'). split; [done|].
    destruct H as (_ & _ & Hsteps & _). simpl in Hsteps. by rewrite Hsteps.
  - split; [done|]. right. exact H.
Qed.

End TrainLoop.

(** ** What the trace of a training run looks like *)

Lemma forwarded_app (evs1 evs2 : list event) :
  forwarded (evs1 ++ evs2) = forwarded evs1 ++ forwarded evs2.
Proof. apply omap_app. Qed.

Lemma optimizer_steps_app (evs1 evs2 : list event) :
  optimizer_steps (evs1 ++ evs2) = (optimizer_steps evs1 + optimizer_steps evs2)%nat.
Proof. unfold optimizer_steps. by rewrite List.filter_app, length_app. Qed.

Lemma report_part_loop_events (rep : list event) :
  report_part rep → Forall is_loop_event rep.
Proof.
  intros [->|(r & e & i & l & a & s & ->)]; [constructor|].
  by repeat constructor.
Qed.

Lemma report_part_forwarded (rep : list event) :
  report_part rep → forwarded rep = [].
Proof. by intros [->|(r & e & i & l & a & s & ->)]. Qed.

Lemma report_part_optimizer_steps (rep : list event) :
  report_part rep → optimizer_steps rep = 0%nat.
Proof. by intros [->|(r & e & i & l & a & s & ->)]. Qed.

Lemma batch_blocks_loop_events (bs : list Batch) (evs : list event) :
  batch_blocks bs evs → Forall is_loop_event evs.
Proof.
  induction 1 as [|bs evs b rep _ IH Hrep]; [constructor|].
  apply Forall_app; split; [done|].
  repeat (apply Forall_cons; split; [done|]).
  apply Forall_app; split; [by apply report_part_loop_events|].
  by repeat constructor.
Qed.

Lemma batch_blocks_forwarded (bs : list Batch) (evs : list event) :
  batch_blocks bs evs → forwarded evs = bs.
Proof.
  induction 1 as [|bs evs b rep _ IH Hrep]; [done|].
  rewrite forwarded_app, IH. f_equal.
  change ([EvZeroGrad; EvForward b] ++ rep ++ [EvBackward; EvOptimizerStep])
    with ([EvZeroGrad; EvForward b] ++ (rep ++ [EvBackward; EvOptimizerStep])).
  rewrite !forwarded_app, (report_part_forwarded _ Hrep). done.
Qed.

Lemma batch_blocks_optimizer_steps (bs : list Batch) (evs : list event) :
  batch_blocks bs evs → optimizer_steps evs = length bs.
Proof.
  induction 1 as [|bs evs b rep _ IH Hrep]; [done|].
  rewrite optimizer_steps_app, IH, length_app.
  change ([EvZeroGrad; EvForward b] ++ rep ++ [EvBackward; EvOptimizerStep])
    with ([EvZeroGrad; EvForward b] ++ (rep ++ [EvBackward; EvOptimizerStep])).
  rewrite !optimizer_steps_app, (report_part_optimizer_steps _ Hrep). done.
Qed.

Lemma train_prologue_forwarded (config : Config) :
  forwarded (train_prologue config) = [].
Proof. unfold train_prologue. by destruct (rank config). Qed.

Lemma train_prologue_optimizer_steps (config : Config) :
  optimizer_steps (train_prologue config) = 0%nat.
Proof. unfold train_prologue. by destruct (rank config). Qed.

Section TrainTrace.
Variables (w : World) (config : Config) (p : Process).

(** The events of [train], in full: the prologue, then complete blocks,
    then exactly one closing line. *)
Lemma train_events_outcome :
  (∃ body,
     below (maxsteps config) (train_stream w config)
     ∧ batch_blocks (train_stream w config) body
     ∧ train_events w config p =
         train_prologue config ++ body
         ++ [EvPrint stdout (MsgFinished (samples (train_stream w config)))])
  ∨ (∃ pre b rest body,
       train_stream w config = pre ++ [b] ++ rest
       ∧ below (maxsteps config) pre
       ∧ maxsteps config < samples (pre ++ [b])
       ∧ batch_blocks (pre ++ [b]) body
       ∧ train_events w config p =
           train_prologue config ++ body
           ++ [EvPrint stderr (MsgMaxsteps (samples (pre ++ [b])) (maxsteps config))]).
Proof.
  unfold train_events.
  destruct (train_outcome w config p) as [_ [(s' & Hrun & Hfin)|(done' & Hpre & Hstop)]].
  - left. destruct Hrun as (_ & _ & _ & Hbelow & body & Htrace & Hblocks).
    exists body. split; [done|]. split; [done|].
    rewrite Hfin. unfold emit. cbn [trace]. rewrite Htrace.
    unfold after_prologue. cbn [trace]. rewrite <- !app_assoc.
    by rewrite drop_app_length.
  - right. destruct Hstop as (_ & pre & b & body & -> & Hbelow & Hcap & Htrace & Hblocks).
    destruct Hpre as [rest Hrest].
    exists pre, b, rest, body. split; [by rewrite Hrest, <- app_assoc|].
    split; [done|]. split; [done|]. split; [done|].
    rewrite Htrace. unfold after_prologue. cbn [trace]. rewrite <- !app_assoc.
    by rewrite drop_app_length.
Qed.

Lemma train_trace :
  trace (snd (train w config p)) = trace p ++ train_events w config p.
Proof.
  unfold train_events.
  destruct (train_outcome w config p) as [_ [(s' & Hrun & Hfin)|(done' & Hpre & Hstop)]].
  - destruct Hrun as (_ & _ & _ & _ & body & Htrace & _).
    rewrite Hfin. unfold emit. cbn [trace]. rewrite Htrace.
    unfold after_prologue. cbn [trace]. rewrite <- !app_assoc.
    by rewrite drop_app_length.
  - destruct Hstop as (_ & pre & b & body & _ & _ & _ & Htrace & _).
    rewrite Htrace. unfold after_prologue. cbn [trace]. rewrite <- !app_assoc.
    by rewrite drop_app_length.
Qed.

Lemma train_environ :
  environ (snd (train w config p)) = environ p.
Proof.
  destruct (train_outcome w config p) as [_ [(s' & Hrun & Hfin)|(done' & Hpre & Hstop)]].
  - destruct Hrun as (Henv & _). rewrite Hfin. unfold emit. cbn [environ].
    by rewrite Henv.
  - by destruct Hstop as (Henv & _).
Qed.

Lemma train_returns : fst (train w config p) = Return tt.
Proof. apply train_outcome. Qed.

End TrainTrace.

Lemma loop_event_not_closing (e : event) :
  is_loop_event e →
  ¬ is_finished_message e ∧ ¬ is_maxsteps_message e ∧ ¬ is_init_process_group e
  ∧ ∀ l m, e ≠ EvSGD l m.
Proof.
  intros He. repeat split.
  - intros (o & s & ->). by destruct o.
  - intros (o & s & c & ->). by destruct o.
  - by intros (be & r & n & ->).
  - by intros l m ->.
Qed.

Lemma train_prologue_not_closing (config : Config) :
  Forall (fun e => ¬ is_finished_message e ∧ ¬ is_maxsteps_message e
                   ∧ ¬ is_init_process_group e
                   ∧ ∀ l m, e = EvSGD l m → m = None)
    (train_prologue config).
Proof.
  unfold train_prologue.
  assert (Hname : ∀ e : event,
            (e = EvResnet50Cuda false ∨ e = EvDistributedDataParallel
             ∨ e = EvCrossEntropyLoss ∨ e = EvSGD (lr config) None) →
            ¬ is_finished_message e ∧ ¬ is_maxsteps_message e
            ∧ ¬ is_init_process_group e ∧ ∀ l m, e = EvSGD l m → m = None).
  { intros e He. repeat split.
    - intros (o & s & ->). by destruct He as [?|[?|[?|?]]].
    - intros (o & s & c & ->). by destruct He as [?|[?|[?|?]]].
    - intros (be & r & n & ->). by destruct He as [?|[?|[?|?]]].
    - intros l m ->. destruct He as [?|[?|[?|Hsgd]]]; try done. by inversion Hsgd. }
  destruct (rank config); repeat constructor; apply Hname; auto.
Qed.

Lemma train_head_not_closing (config : Config) (bs : list Batch) (body : list event) :
  batch_blocks bs body →
  Forall (fun e => ¬ is_finished_message e ∧ ¬ is_maxsteps_message e
                   ∧ ¬ is_init_process_group e
                   ∧ ∀ l m, e = EvSGD l m → m = None)
    (train_prologue config ++ body).
Proof.
  intros Hb. apply Forall_app. split; [apply train_prologue_not_closing|].
  eapply Forall_impl; [apply (batch_blocks_loop_events _ _ Hb)|].
  intros e He. destruct (loop_event_not_closing e He) as (? & ? & ? & Hsgd).
  repeat split; try done. intros l m ->. by destruct (Hsgd l m).
Qed.

Lemma samples_after_app_lt (pre rest : list Batch) (k : nat) :
  (k < length pre)%nat → samples_after (pre ++ rest) k = samples_after pre k.
Proof. intros Hk. unfold samples_after. by rewrite take_app_le by lia. Qed.

Lemma take_app_snoc (pre rest : list Batch) (b : Batch) :
  take (S (length pre)) (pre ++ [b] ++ rest) = pre ++ [b].
Proof.
  rewrite app_assoc.
  replace (S (length pre)) with (length (pre ++ [b])) by (rewrite length_app; simpl; lia).
  apply take_app_length.
Qed.

Lemma samples_after_app_last (pre rest : list Batch) (b : Batch) :
  samples_after (pre ++ [b] ++ rest) (length pre) = samples (pre ++ [b]).
Proof. unfold samples_after. by rewrite take_app_snoc. Qed.

Lemma below_last (cap : Z) (pre : list Batch) :
  below cap pre → samples pre ≤ Z.max 0 cap.
Proof.
  intros Hb. destruct (decide (length pre = 0%nat)) as [H0|Hn].
  - apply length_zero_iff_nil in H0. subst. simpl. lia.
  - specialize (Hb (length pre - 1)%nat ltac:(lia)). unfold samples_after in Hb.
    rewrite take_ge in Hb by lia. lia.
Qed.

Lemma batch_blocks_snoc_inv (pre : list Batch) (b : Batch) (body : list event) :
  batch_blocks (pre ++ [b]) body →
  ∃ body0 rep,
    batch_blocks pre body0 ∧ report_part rep
    ∧ body = body0 ++ [EvZeroGrad; EvForward b] ++ rep ++ [EvBackward; EvOptimizerStep].
Proof.
  intros Hb. inversion Hb as [Hnil|bs evs b' rep Hbs Hrep Heq].
  - by destruct pre.
  - apply app_inj_tail in Heq as [-> ->]. by exists evs, rep.
Qed.

(** ** train: the claims *)

(** [range(config.epochs)] makes [config.epochs] passes over the loader,
    numbered from 0 (none when [config.epochs <= 0]). *)
Lemma train_stream_passes (w : World) (config : Config) :
  train_stream w config =
    concat (map (loader_pass w (make_dataloader_train w))
              (seq 0 (Z.to_nat (epochs config)))).
Proof.
  unfold train_stream, passes, range, seqZ. f_equal.
  rewrite <- list_fmap_compose. apply map_ext. intros i. simpl.
  f_equal. lia.
Qed.

(** C3 (the code departs from it). [train] builds its optimizer with
    [lr=config.lr] and passes no momentum at all: the only SGD call in the
    trace is [SGD(params, lr=config.lr)], no SGD call carries a momentum,
    and [train] behaves the same whatever [config.momentum] is. *)
Theorem train_sgd_without_momentum (w : World) (config : Config) (p : Process) :
  EvSGD (lr config) None ∈ train_events w config p
  ∧ (∀ l m, EvSGD l (Some m) ∉ train_events w config p)
  ∧ (∀ m, train w (set_momentum m config) p = train w config p).
Proof.
  split; [|split].
  - assert (Hin : EvSGD (lr config) None ∈ train_prologue config).
    { unfold train_prologue. apply elem_of_app. right. apply elem_of_app. right.
      apply list_elem_of_In. simpl. auto. }
    destruct (train_events_outcome w config p)
      as [(body & _ & _ & ->)|(pre & b & rest & body & _ & _ & _ & _ & ->)];
      apply elem_of_app; by left.
  - intros l m Hin.
    assert (Hhead : ∀ bs body, batch_blocks bs body →
              EvSGD l (Some m) ∉ train_prologue config ++ body).
    { intros bs body Hb Hin'.
      pose proof (train_head_not_closing config bs body Hb) as Hall.
      rewrite Forall_forall in Hall.
      destruct (Hall _ Hin') as (_ & _ & _ & Hsgd). by specialize (Hsgd l (Some m) eq_refl). }
    destruct (train_events_outcome w config p)
      as [(body & _ & Hb & Heq)|(pre & b & rest & body & _ & _ & _ & Hb & Heq)];
      rewrite Heq, app_assoc in Hin; apply elem_of_app in Hin as [Hin|Hin];
      try (by eapply Hhead); apply list_elem_of_singleton in Hin; discriminate Hin.
  - reflexivity.
Qed.

(** C5. [train] runs the batches of the passes of [range(config.epochs)],
    in order, and nothing else.  If [k] is the first batch of that stream
    at whose end the running sum of label counts exceeds [config.maxsteps],
    [train] runs exactly the batches up to [k], ends with the maxsteps line
    (carrying that sum and the cap) and prints no completion line.  If no
    batch ends above the cap, it runs the whole stream and ends with the
    completion line (carrying the total), printing no maxsteps line. *)
Theorem train_stops_at_cap (w : World) (config : Config) (p : Process) :
  let stream := train_stream w config in
  let evs := train_events w config p in
  let quiet := fun e => ¬ is_finished_message e ∧ ¬ is_maxsteps_message e in
  stream = concat (map (loader_pass w (make_dataloader_train w))
                     (seq 0 (Z.to_nat (epochs config))))
  ∧ forwarded evs `prefix_of` stream
  ∧ (∀ k, (k < length stream)%nat →
          maxsteps config < samples_after stream k →
          (∀ j, (j < k)%nat → samples_after stream j ≤ maxsteps config) →
          forwarded evs = take (S k) stream
          ∧ ∃ head, evs = head ++ [EvPrint stderr
                                     (MsgMaxsteps (samples_after stream k) (maxsteps config))]
                    ∧ Forall quiet head)
  ∧ ((∀ j, (j < length stream)%nat → samples_after stream j ≤ maxsteps config) →
     forwarded evs = stream
     ∧ ∃ head, evs = head ++ [EvPrint stdout (MsgFinished (samples stream))]
               ∧ Forall quiet head).
Proof.
  intros stream evs quiet. subst stream evs.
  split; [apply train_stream_passes|].
  assert (Hquiet : ∀ bs body, batch_blocks bs body →
            Forall quiet (train_prologue config ++ body)).
  { intros bs body Hb. eapply Forall_impl; [apply (train_head_not_closing config bs body Hb)|].
    intros e (? & ? & _). by split. }
  destruct (train_events_outcome w config p)
    as [(body & Hbelow & Hb & Heq)|(pre & b & rest & body & Hstream & Hbelow & Hcap & Hb & Heq)].
  - (* the whole stream was run *)
    assert (Hfw : forwarded (train_events w config p) = train_stream w config).
    { rewrite Heq, !forwarded_app, train_prologue_forwarded, (batch_blocks_forwarded _ _ Hb).
      simpl. by rewrite app_nil_r. }
    split; [by rewrite Hfw|]. split.
    + intros k Hk Hover _. specialize (Hbelow k Hk). lia.
    + intros _. split; [done|].
      exists (train_prologue config ++ body). split; [by rewrite Heq, <- app_assoc|].
      by eapply Hquiet.
  - (* stopped at the end of batch [length pre] *)
    assert (Hfw : forwarded (train_events w config p) = pre ++ [b]).
    { rewrite Heq, !forwarded_app, train_prologue_forwarded, (batch_blocks_forwarded _ _ Hb).
      simpl. by rewrite app_nil_r. }
    split; [rewrite Hfw, Hstream, app_assoc; by apply prefix_app_r|]. split.
    + intros k Hk Hover Hfirst.
      assert (k = length pre) as ->.
      { destruct (Nat.lt_trichotomy k (length pre)) as [Hlt|[Heq'|Hgt]]; [|done|].
        - rewrite Hstream, samples_after_app_lt in Hover by done.
          specialize (Hbelow k Hlt). lia.
        - specialize (Hfirst (length pre) Hgt).
          rewrite Hstream, samples_after_app_last in Hfirst. lia. }
      rewrite Hstream, take_app_snoc, samples_after_app_last. split; [done|].
      exists (train_prologue config ++ body). split; [by rewrite Heq, <- app_assoc|].
      by eapply Hquiet.
    + intros Hall.
      assert (Hlen : (length pre < length (train_stream w config))%nat).
      { rewrite Hstream, !length_app. simpl. lia. }
      specialize (Hall (length pre) Hlen).
      rewrite Hstream, samples_after_app_last in Hall. lia.
Qed.

(** C10, as the code has it. Whenever [train] returns early because of the
    cap (it printed the maxsteps line), the trace is the prologue, complete
    blocks for the earlier batches, the complete block of the final batch
    [b] ending in its optimizer step, and then the maxsteps line: the cap
    is tested only after a whole batch.  The line carries the final counter
    [s], the sum over all batches run, and [s <= max(0, maxsteps) + len(b)];
    so [s <= maxsteps + len(b)] whenever [maxsteps >= 0]. *)
Theorem train_cap_overshoot (w : World) (config : Config) (p : Process)
    (o : stream) (s c : Z) :
  EvPrint o (MsgMaxsteps s c) ∈ train_events w config p →
  ∃ pre b body rep,
    batch_blocks pre body ∧ report_part rep
    ∧ train_events w config p =
        train_prologue config ++ body
        ++ [EvZeroGrad; EvForward b] ++ rep ++ [EvBackward; EvOptimizerStep]
        ++ [EvPrint stderr (MsgMaxsteps s c)]
    ∧ o = stderr ∧ c = maxsteps config
    ∧ s = samples (pre ++ [b])
    ∧ s ≤ Z.max 0 c + batch_len b
    ∧ (0 ≤ c → s ≤ c + batch_len b)
    ∧ optimizer_steps (train_events w config p) = length (pre ++ [b]).
Proof.
  intros Hin.
  assert (Hhead : ∀ bs body, batch_blocks bs body →
            EvPrint o (MsgMaxsteps s c) ∉ train_prologue config ++ body).
  { intros bs body Hb Hin'.
    pose proof (train_head_not_closing config bs body Hb) as Hall.
    rewrite Forall_forall in Hall.
    destruct (Hall _ Hin') as (_ & Hno & _). apply Hno. by exists o, s, c. }
  destruct (train_events_outcome w config p)
    as [(body & _ & Hb & Heq)|(pre & b & rest & body & _ & Hbelow & Hcap & Hb & Heq)].
  - rewrite Heq, app_assoc in Hin. apply elem_of_app in Hin as [Hin|Hin].
    + by destruct (Hhead _ _ Hb).
    + apply list_elem_of_singleton in Hin. discriminate Hin.
  - assert (Hsteps : optimizer_steps (train_events w config p) = length (pre ++ [b])).
    { rewrite Heq, !optimizer_steps_app, train_prologue_optimizer_steps,
        (batch_blocks_optimizer_steps _ _ Hb).
      change (optimizer_steps [EvPrint _ _]) with 0%nat. lia. }
    rewrite Heq, app_assoc in Hin. apply elem_of_app in Hin as [Hin|Hin].
    + by destruct (Hhead _ _ Hb).
    + apply list_elem_of_singleton in Hin. injection Hin as -> -> ->.
      destruct (batch_blocks_snoc_inv _ _ _ Hb) as (body0 & rep & Hb0 & Hrep & ->).
      exists pre, b, body0, rep.
      split; [done|]. split; [done|].
      split; [rewrite Heq; by rewrite <- !app_assoc|].
      split; [done|]. split; [done|]. split; [done|].
      pose proof (below_last _ _ Hbelow) as Hpre.
      rewrite samples_snoc in *.
      split; [lia|]. split; [lia|done].
Qed.

(** The notebook's smoke test ([epochs = 1], [maxsteps = 1000], batches of
    32): the run ends with "finished training (maxsteps) 1024 1000" after
    32 batches, as the recorded output shows. *)
Example train_smoke_test :
  let evs := train_events (sample_world 2003 32)
               (set_maxsteps 1000 (set_epochs 1 Config_default)) fresh_process in
  length (forwarded evs) = 32%nat
  ∧ drop (length evs - 2) evs
    = [EvOptimizerStep; EvPrint stderr (MsgMaxsteps 1024 1000)].
Proof. vm_compute. split; reflexivity. Qed.

(** With [config.momentum = 0.9] (the default) the optimizer is built from
    the learning rate alone. *)
Example train_default_sgd :
  take 3 (train_events (sample_world 1 32) Config_default fresh_process)
  = [EvResnet50Cuda false; EvCrossEntropyLoss; EvSGD 0.001%float None].
Proof. vm_compute. reflexivity. Qed.

Lemma train_stops_at_cap_witness :
  forwarded (train_events (sample_world 3 32) (set_maxsteps 40 Config_default) fresh_process)
  = [batch_of_size 32; batch_of_size 32].
Proof.
  destruct (train_stops_at_cap (sample_world 3 32) (set_maxsteps 40 Config_default)
              fresh_process) as (_ & _ & Hearly & _).
  destruct (Hearly 1%nat) as [Hfw _].
  - vm_compute. lia.
  - vm_compute. reflexivity.
  - intros j Hj. assert (j = 0%nat) as -> by lia. vm_compute. discriminate.
  - rewrite Hfw. reflexivity.
Defined.

Lemma train_cap_overshoot_witness :
  ∃ pre b, 64 = samples (pre ++ [b]) ∧ 64 ≤ 40 + batch_len b.
Proof.
  destruct (train_cap_overshoot (sample_world 3 32) (set_maxsteps 40 Config_default)
              fresh_process stderr 64 40)
    as (pre & b & body & rep & _ & _ & _ & _ & _ & Hs & _ & Hle & _).
  - apply list_elem_of_lookup. exists 12%nat. vm_compute. reflexivity.
  - exists pre, b. split; [exact Hs|]. apply Hle. lia.
Defined.

(** C10 as stated fails for a negative cap: with [maxsteps = -5] and one
    batch of 32 images, [train] returns early with [steps = 32], which is
    more than [maxsteps + 32 = 27]. *)
Lemma train_cap_overshoot_negative_cap :
  train_events (sample_world 1 32) (set_maxsteps (-5) Config_default) fresh_process
  = [EvResnet50Cuda false; EvCrossEntropyLoss; EvSGD 0.001%float None;
     EvZeroGrad; EvForward (batch_of_size 32);
     EvPrint stderr (MsgReport None 0 0%nat 7.029%float 0%float 0);
     EvBackward; EvOptimizerStep;
     EvPrint stderr (MsgMaxsteps 32 (-5))]
  ∧ ¬ (32 ≤ maxsteps (set_maxsteps (-5) Config_default) + batch_len (batch_of_size 32)).
Proof.
  split; [vm_compute; reflexivity|].
  unfold batch_len. simpl. lia.
Qed.

(** ** Ray: the claims *)

Lemma train_events_no_init (w : World) (config : Config) (p : Process) :
  Forall (fun e => ¬ is_init_process_group e) (train_events w config p).
Proof.
  assert (Hhead : ∀ bs body, batch_blocks bs body →
            Forall (fun e => ¬ is_init_process_group e) (train_prologue config ++ body)).
  { intros bs body Hb.
    eapply Forall_impl; [apply (train_head_not_closing config bs body Hb)|].
    by intros e (_ & _ & ? & _). }
  destruct (train_events_outcome w config p)
    as [(body & _ & Hb & ->)|(pre & b & rest & body & _ & _ & _ & Hb & ->)];
    rewrite app_assoc; apply Forall_app; (split; [by eapply Hhead|]);
    repeat constructor; by intros (be & r & n & ?).
Qed.

(** C7. Called with a rank [r], [train_on_ray] has set [MASTER_ADDR] and
    [MASTER_PORT] in the environment to [config.master_addr] and
    [config.master_port], initialised the process group with
    [config.backend], [r] and [config.world_size], and set [config.rank] to
    [r], all before [train] starts; [train] then runs on that config and
    leaves the environment alone.  Called with [None], it only runs
    [train]: the environment and [config] are unchanged and no process
    group is initialised. *)
Theorem train_on_ray_setup (w : World) (config : Config) (p : Process) :
  (∀ r : Z,
     let p1 := emit (EvInitProcessGroup (backend config) r (world_size config))
                 (setenv "MASTER_PORT" (master_port config)
                    (setenv "MASTER_ADDR" (master_addr config) p)) in
     let config' := set_rank (Some r) config in
     let run := train_on_ray w (Some r) config p in
     run = (fst (train w config' p1), config', snd (train w config' p1))
     ∧ environ p1 !! "MASTER_ADDR"%string = Some (master_addr config)
     ∧ environ p1 !! "MASTER_PORT"%string = Some (master_port config)
     ∧ environ (snd run) =
         <["MASTER_PORT"%string := master_port config]>
           (<["MASTER_ADDR"%string := master_addr config]> (environ p))
     ∧ trace (snd run) =
         trace p ++ [EvInitProcessGroup (backend config) r (world_size config)]
         ++ train_events w config' p1
     ∧ rank (snd (fst run)) = Some r
     ∧ Forall (fun e => ¬ is_init_process_group e) (train_events w config' p1))
  ∧ (let run := train_on_ray w None config p in
     run = (fst (train w config p), config, snd (train w config p))
     ∧ environ (snd run) = environ p
     ∧ trace (snd run) = trace p ++ train_events w config p
     ∧ snd (fst run) = config
     ∧ Forall (fun e => ¬ is_init_process_group e) (train_events w config p)).
Proof.
  split.
  - intros r p1 config' run.
    assert (Hrun : run = (fst (train w config' p1), config', snd (train w config' p1))).
    { subst run p1 config'. unfold train_on_ray. by destruct (train w _ _). }
    rewrite Hrun. cbn [fst snd].
    split; [done|]. split; [|split].
    + subst p1. cbn [emit setenv environ].
      rewrite lookup_insert_ne by done. apply lookup_insert_eq.
    + subst p1. cbn [emit setenv environ]. apply lookup_insert_eq.
    + split; [by rewrite train_environ|].
      split; [rewrite train_trace; subst p1; cbn [emit setenv trace]; by rewrite <- app_assoc|].
      split; [done|]. apply train_events_no_init.
  - intros run.
    assert (Hrun : run = (fst (train w config p), config, snd (train w config p))).
    { subst run. unfold train_on_ray. by destruct (train w _ _). }
    rewrite Hrun. cbn [fst snd].
    split; [done|]. split; [apply train_environ|]. split; [apply train_trace|].
    split; [done|]. apply train_events_no_init.
Qed.

(** [float_lt_int] on a few GPU counts. *)
Example float_lt_int_samples :
  float_lt_int 1%float 2 = true ∧ float_lt_int 1.5%float 2 = true
  ∧ float_lt_int 2%float 2 = false ∧ float_lt_int 8%float 2 = false
  ∧ float_lt_int 0%float 2 = true ∧ float_lt_int 2%float 0 = false.
Proof. vm_compute. repeat split. Qed.

(** The launch when the GPU count does not undercut [world_size]. *)
Lemma distributed_training_launched (c : Cluster) (config : Config) (g : float) :
  resources c !! "GPU"%string = Some g →
  float_lt_int g (world_size config) = false →
  distributed_training c config =
    Launched
      {| driver_config := config;
         remote_calls := map (fun i => (i, config)) (range (world_size config));
         remote_runs :=
           map (fun a => train_on_ray (worker_world c (fst a)) (Some (fst a)) (snd a)
                           (worker_process c (fst a)))
             (map (fun i => (i, config)) (range (world_size config)));
         printed :=
           map (fun run => fst (fst run))
             (map (fun a => train_on_ray (worker_world c (fst a)) (Some (fst a)) (snd a)
                              (worker_process c (fst a)))
                (map (fun i => (i, config)) (range (world_size config)))) |}.
Proof. intros Hg Hlt. unfold distributed_training. by rewrite Hg, Hlt. Qed.

(** C6 (the code departs from it).  ray reports the GPU count as a float, and
    [min(config.world_size, num_gpus)] returns that float exactly when it
    is smaller than [config.world_size].
    - No ["GPU"] entry: the lookup raises KeyError; nothing is launched.
    - GPU count below [world_size]: [config.world_size] becomes the float
      and [range(config.world_size)] raises TypeError; nothing is launched.
    - Otherwise [config.world_size] keeps its value and one remote
      [train_on_ray] task is launched per rank [i] of
      [range(config.world_size)], for [i = 0 .. world_size - 1] in this
      order, each with rank [i] and the config. *)
Theorem distributed_training_launches (c : Cluster) (config : Config) :
  (resources c !! "GPU"%string = None →
     distributed_training c config = LaunchKeyError "GPU")
  ∧ (∀ g, resources c !! "GPU"%string = Some g →
       float_lt_int g (world_size config) = true →
       distributed_training c config = LaunchTypeError config g)
  ∧ (∀ g, resources c !! "GPU"%string = Some g →
       float_lt_int g (world_size config) = false →
       ∃ l, distributed_training c config = Launched l
         ∧ driver_config l = config
         ∧ remote_calls l = map (fun i => (i, config)) (range (world_size config))
         ∧ length (remote_calls l) = Z.to_nat (world_size config)
         ∧ (∀ i : nat, Z.of_nat i < world_size config →
              remote_calls l !! i = Some (Z.of_nat i, config))
         ∧ (∀ i : nat, world_size config ≤ Z.of_nat i → remote_calls l !! i = None)
         ∧ remote_runs l =
             map (fun a => train_on_ray (worker_world c (fst a)) (Some (fst a)) (snd a)
                             (worker_process c (fst a))) (remote_calls l)).
Proof.
  split; [|split].
  - intros Hg. unfold distributed_training. by rewrite Hg.
  - intros g Hg Hlt. unfold distributed_training. by rewrite Hg, Hlt.
  - intros g Hg Hlt. eexists. split; [exact (distributed_training_launched c config g Hg Hlt)|].
    cbn [driver_config remote_calls remote_runs].
    split; [done|]. split; [done|].
    split; [by rewrite length_map; unfold range; rewrite length_seqZ|].
    split; [|split; [|done]].
    + intros i Hi. rewrite list_lookup_fmap. unfold range.
      rewrite lookup_seqZ_lt by done. simpl. by rewrite Z.add_0_l.
    + intros i Hi. rewrite list_lookup_fmap. unfold range.
      by rewrite lookup_seqZ_ge.
Qed.

(** C6 as stated fails with one GPU and the default [world_size = 2]:
    [min(2, 1.0)] is [1.0], [range(1.0)] raises TypeError, and no task is
    launched, where the claim has one task with rank 0. *)
Lemma distributed_training_launches_witness :
  distributed_training (sample_cluster 1%float) Config_default
  = LaunchTypeError Config_default 1%float.
Proof.
  destruct (distributed_training_launches (sample_cluster 1%float) Config_default)
    as (_ & Hlow & _).
  apply Hlow; vm_compute; reflexivity.
Defined.

(** On a machine without GPUs ray lists no ["GPU"] resource. *)
Example distributed_training_cpu_only :
  distributed_training cpu_only_cluster Config_default = LaunchKeyError "GPU".
Proof. reflexivity. Qed.

(** Cell 13 on a machine with two GPUs: two tasks, ranks 0 and 1. *)
Example distributed_run_two_gpus :
  ∃ l, distributed_run (sample_cluster 2%float) = Launched l
       ∧ remote_calls l = [(0, distributed_config); (1, distributed_config)].
Proof.
  eexists. split.
  - exact (distributed_training_launched (sample_cluster 2%float) distributed_config
             2%float eq_refl eq_refl).
  - cbn [remote_calls]. reflexivity.
Qed.

(** The function [make_dataloader] as written runs to what its embedding
    gives, for every argument. *)
Lemma make_dataloader_as_written (w : World) (split : string) :
  ∃ params body,
    find_def "make_dataloader" notebook = Some (params, body)
    ∧ exec_block w {[ "split"%string := split ]} body = Done (make_dataloader w split).
Proof.
  eexists _, _. split; [reflexivity|].
  assert (Hsplit : ({[ "split"%string := split ]} : gmap string string) !! "split"%string
                   = Some split) by apply lookup_singleton_eq.
  cbn [exec_block exec]. rewrite !Hsplit.
  unfold make_dataloader.
  destruct (String.eqb split "train"); [reflexivity|].
  destruct (String.eqb split "val"); reflexivity.
Qed.

(** C2. For every string other than "train" and "val", [make_dataloader]
    raises [ValueError("unknown split <split>")]; for "train" it returns
    the training loader, and neither for "train" nor for "val" does it
    raise a ValueError.  This rejection is the only error handling the
    notebook's own code implements: among all its statements, at top level
    and inside every function and class, there is one [raise], the one of
    [make_dataloader], and no [try], [except] or [assert]; and that
    [raise], run as written, is the rejection above. *)
Theorem make_dataloader_rejects_unknown_split (w : World) :
  (∀ split : string, split ≠ "train"%string → split ≠ "val"%string →
     make_dataloader w split = Raise (ValueError (String.append "unknown split " split)))
  ∧ make_dataloader w "train" = Return (make_dataloader_train w)
  ∧ (∀ msg, make_dataloader w "train" ≠ Raise (ValueError msg))
  ∧ (∀ msg, make_dataloader w "val" ≠ Raise (ValueError msg))
  ∧ (∀ split msg, make_dataloader w split = Raise (ValueError msg) →
       split ≠ "train"%string ∧ split ≠ "val"%string
       ∧ msg = String.append "unknown split " split)
  ∧ error_handling notebook =
      [("make_dataloader"%string,
        s_raise "ValueError" (e_fstring "unknown split " "split"))]
  ∧ (∀ split, ∃ params body,
       find_def "make_dataloader" notebook = Some (params, body)
       ∧ exec_block w {[ "split"%string := split ]} body = Done (make_dataloader w split)).
Proof.
  split; [apply make_dataloader_other|].
  split; [apply make_dataloader_train_ok|].
  split; [by rewrite make_dataloader_train_ok|].
  split; [by rewrite make_dataloader_val_raises|].
  split; [|split; [vm_compute; reflexivity|apply make_dataloader_as_written]].
  intros split msg Hraise.
  destruct (decide (split = "train"%string)) as [->|Ht].
  { by rewrite make_dataloader_train_ok in Hraise. }
  destruct (decide (split = "val"%string)) as [->|Hv].
  { by rewrite make_dataloader_val_raises in Hraise. }
  rewrite (make_dataloader_other w split Ht Hv) in Hraise.
  by inversion Hraise.
Qed.

Lemma make_dataloader_rejects_unknown_split_witness :
  make_dataloader (sample_world 1 32) "test"
  = Raise (ValueError "unknown split test").
Proof.
  destruct (make_dataloader_rejects_unknown_split (sample_world 1 32)) as (Hother & _).
  rewrite (Hother "test"%string); [reflexivity | discriminate | discriminate].
Defined.

Lemma train_on_ray_setup_witness :
  map_to_list (environ (snd (train_on_ray (sample_world 1 32) (Some 1) Config_default
                               fresh_process)))
  = [("MASTER_ADDR", "localhost"); ("MASTER_PORT", "12355")]%string.
Proof.
  destruct (train_on_ray_setup (sample_world 1 32) Config_default fresh_process)
    as (Hsome & _).
  destruct (Hsome 1) as (_ & _ & _ & Henv & _).
  rewrite Henv. vm_compute. reflexivity.
Defined.


(** * Further properties *)

(** ** enumerate_report as an online generator *)

Section ReportOnline.
Context {T : Type} `{Number T}.
Implicit Types (clock : nat -> T) (v : @report_vars T) (g d : T).

Lemma report_loop_clock_ext {A : Type} clock1 clock2 g v c (seq : list A) :
  (∀ k, (c <= k < c + length seq)%nat → clock1 k = clock2 k) →
  report_loop clock1 g v c seq = report_loop clock2 g v c seq.
Proof.
  revert v c; induction seq as [|x seq IH]; intros v c Hk; simpl; [done|].
  rewrite <- (Hk c) by (simpl; lia).
  destruct (report_body g v c x (clock1 c)) as [y v'].
  rewrite IH; [done|]. intros k Hk'. apply Hk. simpl. lia.
Qed.

Lemma enumerate_report_take {A : Type} clock (seq : list A) d g n :
  enumerate_report clock (take n seq) d g = take n (enumerate_report clock seq d g).
Proof.
  unfold enumerate_report.
  rewrite <- (take_drop n seq) at 2. rewrite report_loop_app. cbn [fst].
  destruct (decide (n <= length seq)%nat) as [Hle|Hgt].
  - rewrite take_app_length'; [done|].
    rewrite report_loop_length, length_take. lia.
  - rewrite (drop_ge seq n) by lia. simpl. rewrite app_nil_r.
    symmetry. apply take_ge. rewrite report_loop_length, length_take. lia.
Qed.

(** X1. [enumerate_report] works online: its first [n] triples depend only
    on the first [n] elements and the first [n] clock readings.  Two runs
    that agree on those agree on their first [n] triples, whatever comes
    later. *)
Theorem enumerate_report_causal {A : Type} clock1 clock2 (seq1 seq2 : list A) d g n :
  take n seq1 = take n seq2 →
  (∀ k, (k < n)%nat → clock1 k = clock2 k) →
  take n (enumerate_report clock1 seq1 d g) = take n (enumerate_report clock2 seq2 d g).
Proof.
  intros Hseq Hclock. rewrite <- !enumerate_report_take, Hseq.
  unfold enumerate_report. f_equal. apply report_loop_clock_ext.
  intros k [_ Hk]. apply Hclock. rewrite length_take in Hk. lia.
Qed.

Lemma report_loop_flags_length {A B : Type} clock g v c (seq1 : list A) (seq2 : list B) :
  length seq1 = length seq2 →
  flags_of (fst (report_loop clock g v c seq1)) = flags_of (fst (report_loop clock g v c seq2))
  ∧ snd (report_loop clock g v c seq1) = snd (report_loop clock g v c seq2).
Proof.
  revert seq2 v c; induction seq1 as [|x seq1 IH]; intros [|x2 seq2] v c Hlen;
    simpl in Hlen; try discriminate; [done|].
  simpl.
  rewrite (surjective_pairing (report_body g v c x (clock c))).
  rewrite (surjective_pairing (report_body g v c x2 (clock c))).
  assert (Hv : snd (report_body g v c x (clock c)) = snd (report_body g v c x2 (clock c))).
  { unfold report_body. by destruct (num_gt _ _). }
  rewrite Hv.
  destruct (IH seq2 (snd (report_body g v c x2 (clock c))) (S c)) as [Hf Hs]; [lia|].
  destruct (report_loop clock g _ (S c) seq1) as [ys1 vf1].
  destruct (report_loop clock g _ (S c) seq2) as [ys2 vf2].
  simpl in *. rewrite !report_body_yield. simpl. by rewrite Hf, Hs.
Qed.

(** X2. The report flags depend on the positions and the clock only, never
    on the elements: two sequences of the same length, of any element
    types, get the same flags and leave the generator's locals equal. *)
Theorem enumerate_report_flags_by_position {A B : Type} clock (seq1 : list A)
    (seq2 : list B) d g :
  length seq1 = length seq2 →
  flags_of (enumerate_report clock seq1 d g) = flags_of (enumerate_report clock seq2 d g)
  ∧ ∀ n, report_vars_at clock seq1 d g n = report_vars_at clock seq2 d g n.
Proof.
  intros Hlen. split; [by apply report_loop_flags_length|].
  intros n. unfold report_vars_at. apply report_loop_flags_length.
  rewrite !length_take. lia.
Qed.

Lemma last_flagged_recent (flags : list bool) clock i j :
  (i < j)%nat → nth i flags false = true →
  ∃ k, (i <= k < j)%nat ∧ last_flagged flags clock j = clock k.
Proof.
  induction j as [|j IH]; intros Hij Hi; [lia|].
  simpl. destruct (nth j flags false) eqn:Hj.
  - exists j. split; [lia|done].
  - assert (i ≠ j) by (intros ->; congruence).
    destruct IH as (k & Hk & Heq); [lia|done|].
    exists k. split; [lia|done].
Qed.

(** X3. Throttling.  Let the clock never run backwards for an order [le]
    that subtraction respects (a smaller subtrahend keeps a difference
    above a bound).  Then any two elements that are both flagged are more
    than the later one's interval apart in clock time, whether or not they
    are consecutive reports. *)
Theorem enumerate_report_separation {A : Type} (le : T -> T -> Prop) clock
    (seq : list A) d g :
  (∀ i j, (i <= j)%nat → le (clock i) (clock j)) →
  (∀ a b b' bound, le b' b → num_gt (num_sub a b) bound = true →
                   num_gt (num_sub a b') bound = true) →
  ∀ i j, (i < j < length seq)%nat →
    nth i (flags_of (enumerate_report clock seq d g)) false = true →
    nth j (flags_of (enumerate_report clock seq d g)) false = true →
    num_gt (num_sub (clock j) (clock i)) (delta (report_vars_at clock seq d g j)) = true.
Proof.
  intros Hmono Hsub i j [Hij Hj] Hfi Hfj.
  destruct (lookup_lt_is_Some_2 seq j Hj) as [item Hitem].
  rewrite (enumerate_report_flag_nth _ _ _ _ _ _ Hitem), report_body_yield in Hfj.
  simpl in Hfj. rewrite report_vars_at_last in Hfj by lia.
  destruct (last_flagged_recent _ clock i j Hij Hfi) as (k & Hk & Hlast).
  rewrite Hlast in Hfj.
  eapply Hsub; [|exact Hfj]. apply Hmono. lia.
Qed.

End ReportOnline.

Lemma enumerate_report_causal_witness :
  take 2 (enumerate_report (T := Z) (fun k => nth k [20; 30; 100] 0) ["a"; "b"; "c"]%string 15 2)
  = take 2 (enumerate_report (T := Z) (fun k => nth k [20; 30] 7) ["a"; "b"]%string 15 2).
Proof.
  apply (enumerate_report_causal (T := Z)).
  - reflexivity.
  - intros k Hk. destruct k as [|[|k]]; [reflexivity | reflexivity | lia].
Defined.

Lemma enumerate_report_flags_by_position_witness :
  flags_of (enumerate_report (T := Z) (fun k => nth k [20; 30; 100] 0) ["a"; "b"; "c"]%string 15 2)
  = flags_of (enumerate_report (T := Z) (fun k => nth k [20; 30; 100] 0) [1; 2; 3] 15 2).
Proof.
  apply (enumerate_report_flags_by_position (T := Z)). reflexivity.
Defined.

Lemma enumerate_report_separation_witness :
  (60 - 20 >? 15 * 2) = true.
Proof.
  assert (Hmono : ∀ i j, (i <= j)%nat → 20 + 40 * Z.of_nat i ≤ 20 + 40 * Z.of_nat j)
    by (intros; lia).
  assert (Hsub : ∀ a b b' bound : Z, b' ≤ b → (a - b >? bound) = true →
            (a - b' >? bound) = true).
  { intros a b b' bound Hle Hgt. apply Z.gtb_lt in Hgt. apply Z.gtb_lt. lia. }
  exact (enumerate_report_separation (T := Z) Z.le (fun k => 20 + 40 * Z.of_nat k)
           ["a"; "b"; "c"]%string 15 2 Hmono Hsub 0%nat 1%nat
           (ltac:(lia) : (0 < 1 < 3)%nat)
           eq_refl eq_refl).
Defined.

(** ** The statistics deques *)

Lemma deque_append_nonempty (n : nat) (x : float) (d : list float) :
  (0 < length (deque_append (S n) x d))%nat.
Proof.
  unfold deque_append. destruct d as [|y d]; simpl.
  - destruct n; simpl; lia.
  - destruct (_ <? _)%nat; simpl; rewrite ?length_app; simpl; lia.
Qed.

Lemma tail_drop {A : Type} (l : list A) (k : nat) : tail (drop k l) = drop (S k) l.
Proof.
  revert k; induction l as [|x l IH]; intros [|k]; simpl; done.
Qed.

Lemma recent_short {A : Type} (n : nat) (l : list A) :
  (length l <= n)%nat → recent n l = l.
Proof. intros Hl. unfold recent. by replace (length l - n)%nat with 0%nat by lia. Qed.

Lemma recent_length {A : Type} (n : nat) (l : list A) :
  length (recent n l) = Nat.min n (length l).
Proof. unfold recent. rewrite length_drop. lia. Qed.

(** Appending to a full deque drops its oldest element: the deque always
    holds the last [maxlen] values appended. *)
Lemma deque_append_recent (n : nat) (x : float) (l : list float) :
  deque_append (S n) x (recent (S n) l) = recent (S n) (l ++ [x]).
Proof.
  unfold deque_append.
  destruct (decide (length l <= n)%nat) as [Hshort|Hlong].
  - rewrite (recent_short (S n) l) by lia.
    rewrite (recent_short (S n) (l ++ [x])) by (rewrite length_app; simpl; lia).
    assert (Hlt : (S n <? length (l ++ [x]))%nat = false).
    { apply Nat.ltb_ge. rewrite length_app. simpl. lia. }
    by rewrite Hlt.
  - assert (Hlt : (S n <? length (recent (S n) l ++ [x]))%nat = true).
    { apply Nat.ltb_lt. rewrite length_app, recent_length. cbn [length]. lia. }
    rewrite Hlt. unfold recent.
    destruct (drop (length l - S n) l) as [|y rest] eqn:Hdrop.
    { apply (f_equal length) in Hdrop. rewrite length_drop in Hdrop. simpl in Hdrop. lia. }
    change (tail ((y :: rest) ++ [x])) with (tail (y :: rest) ++ [x]).
    rewrite <- Hdrop, tail_drop, length_app. simpl.
    replace (length l + 1 - S n)%nat with (S (length l - S n)) by lia.
    rewrite drop_app_le by lia. done.
Qed.

(** ** One batch, exactly *)

Lemma train_body_exact (config : Config) (epoch : Z) (p : Process) (v : train_vars)
    (i : nat) (b : Batch) (verbose : bool) :
  train_body config epoch (p, v) (i, b, verbose) =
    (if steps v + batch_len b >? maxsteps config then Returned else Continue,
     ({| environ := environ p;
         trace :=
           trace p ++ [EvZeroGrad; EvForward b]
           ++ (if verbose
               then [EvPrint stderr
                       (MsgReport (rank config) epoch i
                          (average (deque_append 100 (loss_item b) (losses v)))
                          (average (deque_append 100 (accuracy_item b) (accuracies v)))
                          (steps v))]
               else [])
           ++ [EvBackward; EvOptimizerStep]
           ++ (if steps v + batch_len b >? maxsteps config
               then [EvPrint stderr (MsgMaxsteps (steps v + batch_len b) (maxsteps config))]
               else []);
         ticks := S (ticks p) |},
      {| losses := deque_append 100 (loss_item b) (losses v);
         accuracies := deque_append 100 (accuracy_item b) (accuracies v);
         steps := steps v + batch_len b |})).
Proof.
  unfold train_body, batch_len.
  assert (Hlen : (0 <? length (deque_append 100 (loss_item b) (losses v)))%nat = true).
  { apply Nat.ltb_lt. apply deque_append_nonempty. }
  rewrite Hlen, andb_true_r. unfold emit, tick. cbn [environ trace ticks].
  destruct verbose; cbn [environ trace ticks];
    destruct (_ >? _); cbn [environ trace ticks];
    rewrite <- ?app_assoc; cbn [app]; reflexivity.
Qed.

(** X4. Inside a batch the progress line is printed exactly when
    [enumerate_report] flagged the batch: the test [len(losses) > 0] can
    never fail, because the batch's own loss has just been appended. *)
Theorem train_body_reports_when_flagged (config : Config) (epoch : Z) (p : Process)
    (v : train_vars) (i : nat) (b : Batch) (verbose : bool) :
  let p' := fst (snd (train_body config epoch (p, v) (i, b, verbose))) in
  (∃ r e j l a s,
     EvPrint stderr (MsgReport r e j l a s) ∈ drop (length (trace p)) (trace p'))
  ↔ verbose = true.
Proof.
  intros p'. subst p'. rewrite train_body_exact. cbn [fst snd trace].
  rewrite drop_app_length. split.
  - intros (r & e & j & l & a & s & Hin). destruct verbose; [done|].
    exfalso. destruct (_ >? _); simpl in Hin;
      repeat (apply elem_of_cons in Hin as [Hin|Hin]; [discriminate Hin|]);
      by apply not_elem_of_nil in Hin.
  - intros ->. do 6 eexists. cbn [app].
    apply elem_of_cons; right. apply elem_of_cons; right.
    apply elem_of_cons; left. reflexivity.
Qed.

(** ** What the progress lines carry *)

Lemma report_loop_indexed {T : Type} `{Number T} {A : Type} (clock : nat -> T) (g : T)
    (v : report_vars) (pre seq : list A) :
  indexed_in (pre ++ seq) (fst (report_loop clock g v (length pre) seq)).
Proof.
  revert pre v; induction seq as [|x seq IH]; intros pre v; simpl; [constructor|].
  rewrite (surjective_pairing (report_body g v (length pre) x (clock (length pre)))).
  specialize (IH (pre ++ [x]) (snd (report_body g v (length pre) x (clock (length pre))))).
  rewrite length_app in IH. simpl in IH.
  replace (length pre + 1)%nat with (S (length pre)) in IH by lia.
  rewrite <- app_assoc in IH. simpl in IH.
  destruct (report_loop clock g _ (S (length pre)) seq) as [ys vf].
  simpl in *. constructor; [|exact IH].
  rewrite report_body_yield. simpl. apply list_lookup_middle. done.
Qed.

Lemma enumerate_report_indexed {T : Type} `{Number T} {A : Type} (clock : nat -> T)
    (seq : list A) (d g : T) :
  indexed_in seq (enumerate_report clock seq d g).
Proof. apply (report_loop_indexed clock g (report_init d) [] seq). Qed.

Section Tracking.
Variables (w : World) (config : Config).

Lemma report_line_ok_app evs blk n m :
  (n <= length evs)%nat →
  report_line_ok w config evs n m → report_line_ok w config (evs ++ blk) n m.
Proof.
  intros Hn. destruct m; simpl; try done. by rewrite take_app_le by lia.
Qed.

Lemma reports_ok_app evs blk :
  reports_ok w config evs →
  (∀ k o m, blk !! k = Some (EvPrint o m) →
            report_line_ok w config (evs ++ blk) (length evs + k) m) →
  reports_ok w config (evs ++ blk).
Proof.
  intros Hevs Hblk n o m Hn.
  destruct (decide (n < length evs)%nat) as [Hlt|Hge].
  - rewrite lookup_app_l in Hn by done.
    apply report_line_ok_app; [lia|]. by eapply Hevs.
  - rewrite lookup_app_r in Hn by lia.
    replace n with (length evs + (n - length evs))%nat at 1 by lia.
    by eapply Hblk.
Qed.

(** One batch keeps the statistics and the progress lines as described. *)
Lemma train_body_tracking epoch p0 done p v i b verbose :
  tracking w config p0 done (p, v) →
  loader_pass w (make_dataloader_train w) (Z.to_nat epoch) !! i = Some b →
  tracking w config p0 (done ++ [b])
    (snd (train_body config epoch (p, v) (i, b, verbose))).
Proof.
  intros (Henv & Hticks & Hlosses & Haccs & Hsteps & evs & Htrace & Hfw & Hrep) Hb.
  cbn [fst snd] in *.
  rewrite train_body_exact. cbn [fst snd environ ticks trace losses accuracies steps].
  assert (Hl' : deque_append 100 (loss_item b) (losses v)
                = recent 100 (map loss_item (done ++ [b]))).
  { rewrite Hlosses, map_app. apply deque_append_recent. }
  assert (Ha' : deque_append 100 (accuracy_item b) (accuracies v)
                = recent 100 (map accuracy_item (done ++ [b]))).
  { rewrite Haccs, map_app. apply deque_append_recent. }
  rewrite Hl', Ha'.
  remember (average (recent 100 (map loss_item (done ++ [b])))) as la eqn:Hla.
  remember (average (recent 100 (map accuracy_item (done ++ [b])))) as aa eqn:Haa.
  unfold tracking. cbn [fst snd environ ticks trace losses accuracies steps].
  split; [done|]. split; [rewrite length_app; simpl; lia|].
  split; [done|]. split; [done|]. split; [rewrite samples_snoc; lia|].
  eexists (evs ++ _). split; [rewrite Htrace, <- app_assoc; reflexivity|].
  split.
  - rewrite forwarded_app, Hfw. f_equal.
    destruct verbose; destruct (_ >? _); reflexivity.
  - apply reports_ok_app; [done|]. intros k o m Hk.
    destruct verbose; destruct (_ >? _);
      do 6 (try (destruct k as [|k]; [simpl in Hk; try discriminate Hk|]));
      try (simpl in Hk; discriminate Hk);
      injection Hk as <- <-; try exact I.
    all: exists done, b; cbn [app];
      rewrite (firstn_app (length evs + 2)), take_ge by lia;
      replace (length evs + 2 - length evs)%nat with 2%nat by lia;
      cbn [firstn]; rewrite forwarded_app, Hfw;
      subst la aa; repeat split; done.
Qed.

Lemma train_inner_tracking epoch (ys : list (nat * Batch * bool)) p0 done s :
  tracking w config p0 done s →
  indexed_in (loader_pass w (make_dataloader_train w) (Z.to_nat epoch)) ys →
  ∃ done', tracking w config p0 done' (snd (for_each (train_body config epoch) s ys)).
Proof.
  revert done s; induction ys as [|[[i b] verbose] ys IH]; intros done [p v] Htr Hys.
  - by exists done.
  - apply Forall_cons in Hys as [Hy Hys]. simpl in Hy.
    pose proof (train_body_tracking epoch p0 done p v i b verbose Htr Hy) as Hstep.
    cbn [for_each].
    destruct (train_body config epoch (p, v) (i, b, verbose)) as [[|] s1]; simpl in Hstep.
    + by eapply IH.
    + by exists (done ++ [b]).
Qed.

Lemma train_epochs_tracking (es : list Z) p0 done s :
  tracking w config p0 done s →
  ∃ done', tracking w config p0 done'
             (snd (for_each (train_epoch w config (make_dataloader_train w)) s es)).
Proof.
  revert done s; induction es as [|epoch es IH]; intros done s Htr.
  - by exists done.
  - cbn [for_each]. unfold train_epoch at 1.
    destruct (train_inner_tracking epoch
      (enumerate_report (fun k => clock w (ticks (fst s) + k)%nat)
         (loader_pass w (make_dataloader_train w) (Z.to_nat epoch))
         (report_s config) growth_default) p0 done s Htr) as [done' Hin].
    { apply enumerate_report_indexed. }
    destruct (for_each (train_body config epoch) s _) as [[|] s1]; simpl in Hin.
    + by eapply IH.
    + by exists done'.
Qed.

Lemma train_tracking p :
  reports_ok w config (train_events w config p)
  ∧ ticks (snd (train w config p))
    = (ticks p + length (forwarded (train_events w config p)))%nat.
Proof.
  assert (Hstart : ∃ evs, trace (after_prologue config p) = trace p ++ evs
                          ∧ forwarded evs = [] ∧ reports_ok w config evs).
  { exists (train_prologue config). split; [done|].
    split; [apply train_prologue_forwarded|].
    intros n o m Hn. unfold train_prologue in Hn.
    destruct (rank config); repeat (destruct n as [|n]; try discriminate Hn). }
  assert (Htr0 : tracking w config p [] (after_prologue config p,
                   {| losses := []; accuracies := []; steps := 0 |})).
  { split; [done|]. split; [simpl; lia|]. split; [done|]. split; [done|].
    split; [done|]. exact Hstart. }
  destruct (train_epochs_tracking (range (epochs config)) p [] _ Htr0) as [done' Htr].
  unfold train_events, train. rewrite make_dataloader_train_ok.
  set (p0 := emit (EvSGD (lr config) None) _).
  assert (Hp0 : p0 = after_prologue config p).
  { unfold p0, after_prologue, train_prologue, emit.
    destruct (rank config); simpl; f_equal; by rewrite <- !app_assoc. }
  rewrite Hp0.
  destruct (for_each _ _ (range (epochs config))) as [[|] [p' v']];
    destruct Htr as (_ & Hticks & _ & _ & _ & evs & Htrace & Hfw & Hrep);
    cbn [fst snd] in *.
  - unfold emit. cbn [trace ticks]. rewrite Htrace, <- app_assoc, drop_app_length.
    split.
    + apply reports_ok_app; [done|]. intros k o m Hk.
      destruct k as [|k]; [|destruct k; discriminate Hk].
      by injection Hk as <- <-.
    + rewrite forwarded_app, Hfw. simpl. rewrite app_nil_r. lia.
  - rewrite Htrace, drop_app_length. split; [done|]. rewrite Hfw. lia.
Qed.

End Tracking.

(** X5. What a progress line means.  Every progress line [train] prints
    follows the forward pass of a batch [b]; it names the config's rank,
    the epoch [e] and the index [i] with [b] being batch [i] of the pass of
    epoch [e]; its loss and accuracy are the averages over the last 100
    batches run in this call (fewer at the start, never reset between
    epochs), [b] included; and its counter is the number of samples of the
    batches before [b]. *)
Theorem train_progress_line (w : World) (config : Config) (p : Process)
    (n : nat) (o : stream) (r : option Z) (e : Z) (i : nat) (l a : float) (s : Z) :
  train_events w config p !! n = Some (EvPrint o (MsgReport r e i l a s)) →
  ∃ pre b,
    forwarded (take n (train_events w config p)) = pre ++ [b]
    ∧ r = rank config
    ∧ loader_pass w (make_dataloader_train w) (Z.to_nat e) !! i = Some b
    ∧ l = average (recent 100 (map loss_item (pre ++ [b])))
    ∧ a = average (recent 100 (map accuracy_item (pre ++ [b])))
    ∧ s = samples pre.
Proof.
  intros Hn. destruct (train_tracking w config p) as [Hrep _].
  exact (Hrep n o _ Hn).
Qed.

(** X6. [train] reads the clock exactly once for every batch it runs (the
    reading [enumerate_report] takes before yielding it) and at no other
    time, and it leaves the environment variables as they were. *)
Theorem train_clock_readings (w : World) (config : Config) (p : Process) :
  ticks (snd (train w config p))
  = (ticks p + length (forwarded (train_events w config p)))%nat
  ∧ environ (snd (train w config p)) = environ p.
Proof. split; [apply train_tracking | apply train_environ]. Qed.

(** ** How a training run ends *)

Lemma batch_len_nonneg (b : Batch) : 0 ≤ batch_len b.
Proof. unfold batch_len. lia. Qed.

Lemma samples_nonneg (bs : list Batch) : 0 ≤ samples bs.
Proof.
  induction bs as [|b bs IH]; simpl; [lia|].
  pose proof (batch_len_nonneg b). lia.
Qed.

Lemma samples_take_le (bs : list Batch) (k : nat) : samples (take k bs) ≤ samples bs.
Proof.
  rewrite <- (take_drop k bs) at 2. rewrite samples_app.
  pose proof (samples_nonneg (drop k bs)). lia.
Qed.

Lemma samples_uniform (size : Z) (bs : list Batch) :
  Forall (fun b => batch_len b = size) bs → samples bs = size * Z.of_nat (length bs).
Proof.
  induction 1 as [|b bs Hb _ IH]; simpl; [lia|]. rewrite IH, Hb. lia.
Qed.

Section TrainEnd.
Variables (w : World) (config : Config) (p : Process).

(** The run when no batch ends above the cap. *)
Lemma train_runs_through :
  below (maxsteps config) (train_stream w config) →
  ∃ body, batch_blocks (train_stream w config) body
          ∧ train_events w config p =
              train_prologue config ++ body
              ++ [EvPrint stdout (MsgFinished (samples (train_stream w config)))].
Proof.
  intros Hbelow.
  destruct (train_events_outcome w config p)
    as [(body & _ & Hb & Heq)|(pre & b & rest & body & Hstream & _ & Hcap & _ & _)].
  - by exists body.
  - assert (Hlen : (length pre < length (train_stream w config))%nat).
    { rewrite Hstream, !length_app. simpl. lia. }
    specialize (Hbelow (length pre) Hlen).
    rewrite Hstream, samples_after_app_last in Hbelow. lia.
Qed.

(** The run when batch [k] is the first to end above the cap. *)
Lemma train_stops_after k :
  (k < length (train_stream w config))%nat →
  maxsteps config < samples_after (train_stream w config) k →
  (∀ j, (j < k)%nat → samples_after (train_stream w config) j ≤ maxsteps config) →
  ∃ body, batch_blocks (take (S k) (train_stream w config)) body
          ∧ train_events w config p =
              train_prologue config ++ body
              ++ [EvPrint stderr
                    (MsgMaxsteps (samples_after (train_stream w config) k) (maxsteps config))].
Proof.
  intros Hk Hover Hfirst.
  destruct (train_events_outcome w config p)
    as [(body & Hbelow & _ & _)|(pre & b & rest & body & Hstream & Hbelow & Hcap & Hb & Heq)].
  - specialize (Hbelow k Hk). lia.
  - assert (k = length pre) as ->.
    { destruct (Nat.lt_trichotomy k (length pre)) as [Hlt|[Heq'|Hgt]]; [|done|].
      - rewrite Hstream, samples_after_app_lt in Hover by done.
        specialize (Hbelow k Hlt). lia.
      - specialize (Hfirst (length pre) Hgt).
        rewrite Hstream, samples_after_app_last in Hfirst. lia. }
    exists body. rewrite Hstream, take_app_snoc, samples_after_app_last. by split.
Qed.

End TrainEnd.

(** X7. Every call of [train] ends with exactly one closing line, as the
    last thing it does: either the maxsteps line or the completion line.
    In both cases the line carries the number of samples of the batches
    actually run, and every batch that was run through the model got
    exactly one optimizer step. *)
Theorem train_closing_line (w : World) (config : Config) (p : Process) :
  let evs := train_events w config p in
  ∃ head closing,
    evs = head ++ [closing]
    ∧ Forall (fun e => ¬ is_finished_message e ∧ ¬ is_maxsteps_message e) head
    ∧ (closing = EvPrint stderr (MsgMaxsteps (samples (forwarded evs)) (maxsteps config))
       ∧ maxsteps config < samples (forwarded evs)
       ∨ closing = EvPrint stdout (MsgFinished (samples (forwarded evs)))
         ∧ forwarded evs = train_stream w config)
    ∧ optimizer_steps evs = length (forwarded evs).
Proof.
  intros evs. subst evs.
  assert (Hquiet : ∀ bs body, batch_blocks bs body →
            Forall (fun e => ¬ is_finished_message e ∧ ¬ is_maxsteps_message e)
              (train_prologue config ++ body)).
  { intros bs body Hb.
    eapply Forall_impl; [apply (train_head_not_closing config bs body Hb)|].
    intros e (? & ? & _). by split. }
  destruct (train_events_outcome w config p)
    as [(body & _ & Hb & Heq)|(pre & b & rest & body & _ & _ & Hcap & Hb & Heq)];
    rewrite Heq;
    rewrite !forwarded_app, train_prologue_forwarded, (batch_blocks_forwarded _ _ Hb);
    rewrite !optimizer_steps_app, train_prologue_optimizer_steps,
      (batch_blocks_optimizer_steps _ _ Hb);
    change (optimizer_steps [EvPrint _ _]) with 0%nat;
    change (forwarded [EvPrint _ _]) with (@nil Batch);
    rewrite app_nil_l, app_nil_r;
    eexists (train_prologue config ++ body), _;
    (split; [by rewrite <- app_assoc|]);
    (split; [by eapply Hquiet|]); (split; [|lia]).
  - by right.
  - by left.
Qed.

(** X8. No batches, no training: when [config.epochs <= 0], or when the
    loader delivers nothing, [train] only builds the model and the
    optimizer and prints "finished Training 0". *)
Theorem train_nothing_to_do (w : World) (config : Config) (p : Process) :
  (epochs config ≤ 0 → train_stream w config = [])
  ∧ (train_stream w config = [] →
     train_events w config p =
       train_prologue config ++ [EvPrint stdout (MsgFinished 0)]).
Proof.
  split.
  - intros He. unfold train_stream, passes, range. by rewrite seqZ_nil.
  - intros Hnil.
    destruct (train_runs_through w config p) as (body & Hb & Heq).
    { rewrite Hnil. apply below_nil. }
    rewrite Hnil in Hb, Heq. inversion Hb as [Hbody|bs evs b rep _ _ Hbs].
    + subst body. rewrite Heq. reflexivity.
    + destruct bs; discriminate.
Qed.

(** X9. If the whole stream holds no more than [config.maxsteps] samples,
    the cap never triggers: [train] runs every batch of every epoch and
    prints the completion line with the total.  (With the default cap of
    10^18 this is the normal case.) *)
Theorem train_completes_under_cap (w : World) (config : Config) (p : Process) :
  samples (train_stream w config) ≤ maxsteps config →
  forwarded (train_events w config p) = train_stream w config
  ∧ ∃ head, train_events w config p =
              head ++ [EvPrint stdout (MsgFinished (samples (train_stream w config)))]
            ∧ Forall (fun e => ¬ is_maxsteps_message e) head.
Proof.
  intros Htotal.
  destruct (train_runs_through w config p) as (body & Hb & Heq).
  { intros j Hj. unfold samples_after.
    pose proof (samples_take_le (train_stream w config) (S j)). lia. }
  split.
  - rewrite Heq, !forwarded_app, train_prologue_forwarded, (batch_blocks_forwarded _ _ Hb).
    simpl. by rewrite app_nil_r.
  - exists (train_prologue config ++ body). split; [by rewrite Heq, <- app_assoc|].
    eapply Forall_impl; [apply (train_head_not_closing config _ body Hb)|].
    by intros e (_ & ? & _).
Qed.

(** X10. A negative cap stops training at once: with [config.maxsteps < 0]
    and at least one batch, [train] runs exactly the first batch (its
    optimizer step included) and prints the maxsteps line with that
    batch's size. *)
Theorem train_negative_cap (w : World) (config : Config) (p : Process)
    (b : Batch) (rest : list Batch) :
  maxsteps config < 0 →
  train_stream w config = b :: rest →
  forwarded (train_events w config p) = [b]
  ∧ optimizer_steps (train_events w config p) = 1%nat
  ∧ ∃ head, train_events w config p =
              head ++ [EvPrint stderr (MsgMaxsteps (batch_len b) (maxsteps config))].
Proof.
  intros Hneg Hstream.
  destruct (train_stops_after w config p 0) as (body & Hb & Heq).
  - rewrite Hstream. simpl. lia.
  - rewrite Hstream. unfold samples_after. simpl.
    pose proof (batch_len_nonneg b). lia.
  - intros j Hj. lia.
  - rewrite Hstream in Hb, Heq. unfold samples_after, samples in Heq.
    cbn [firstn foldr] in Hb, Heq. rewrite Z.add_0_r in Heq.
    rewrite Heq, !forwarded_app, !optimizer_steps_app, train_prologue_forwarded,
      train_prologue_optimizer_steps, (batch_blocks_forwarded _ _ Hb),
      (batch_blocks_optimizer_steps _ _ Hb).
    split; [done|]. split; [done|].
    exists (train_prologue config ++ body). by rewrite <- app_assoc.
Qed.

Lemma samples_after_uniform (size : Z) (bs : list Batch) (j : nat) :
  Forall (fun b => batch_len b = size) bs → (j < length bs)%nat →
  samples_after bs j = size * (Z.of_nat j + 1).
Proof.
  intros Hall Hj. unfold samples_after.
  rewrite (samples_uniform size) by (by apply Forall_take).
  rewrite length_take. f_equal. lia.
Qed.

(** X11. With batches of one size [B > 0] and a cap [maxsteps >= 0],
    [train] runs exactly [maxsteps // B + 1] batches (if the stream has
    that many) and stops with [steps = B * (maxsteps // B + 1)], the first
    multiple of [B] above the cap. *)
Theorem train_uniform_batches (w : World) (config : Config) (p : Process) (size : Z) :
  0 < size → 0 ≤ maxsteps config →
  Forall (fun b => batch_len b = size) (train_stream w config) →
  (Z.to_nat (maxsteps config / size) < length (train_stream w config))%nat →
  forwarded (train_events w config p)
  = take (S (Z.to_nat (maxsteps config / size))) (train_stream w config)
  ∧ optimizer_steps (train_events w config p) = S (Z.to_nat (maxsteps config / size))
  ∧ ∃ head, train_events w config p =
              head ++ [EvPrint stderr
                         (MsgMaxsteps (size * (maxsteps config / size + 1)) (maxsteps config))].
Proof.
  intros Hsize Hcap Hall Hlen.
  set (k := Z.to_nat (maxsteps config / size)) in *.
  assert (Hq : 0 ≤ maxsteps config / size) by (apply Z.div_pos; lia).
  assert (Hk : Z.of_nat k = maxsteps config / size) by (unfold k; lia).
  pose proof (Z.mul_succ_div_gt (maxsteps config) size Hsize) as Hgt.
  pose proof (Z.mul_div_le (maxsteps config) size Hsize) as Hle.
  destruct (train_stops_after w config p k) as (body & Hb & Heq); [done| |  |].
  - rewrite (samples_after_uniform size) by done. rewrite Hk. lia.
  - intros j Hj. rewrite (samples_after_uniform size) by (done || lia). nia.
  - rewrite (samples_after_uniform size), Hk in Heq by done.
    rewrite Heq, !forwarded_app, !optimizer_steps_app, train_prologue_forwarded,
      train_prologue_optimizer_steps, (batch_blocks_forwarded _ _ Hb),
      (batch_blocks_optimizer_steps _ _ Hb).
    change (optimizer_steps [EvPrint _ _]) with 0%nat.
    change (forwarded [EvPrint _ _]) with (@nil Batch).
    rewrite app_nil_l, app_nil_r, length_take.
    split; [done|]. split; [lia|].
    exists (train_prologue config ++ body). by rewrite <- app_assoc.
Qed.

Lemma train_uniform_batches_witness :
  optimizer_steps (train_events (sample_world 3 32) (set_maxsteps 40 Config_default)
                     fresh_process) = 2%nat.
Proof.
  destruct (train_uniform_batches (sample_world 3 32) (set_maxsteps 40 Config_default)
              fresh_process 32) as (_ & Hsteps & _).
  - lia.
  - simpl. lia.
  - vm_compute. repeat constructor.
  - vm_compute. lia.
  - rewrite Hsteps. reflexivity.
Defined.

(** X12. The smoke test of cell 10 ([epochs = 1], [maxsteps = 1000]): if
    the first pass of the loader has at least 32 batches of [batch_size]
    images, the test returns normally after exactly 32 batches with the
    line "finished training (maxsteps) 1024 1000", as the notebook's
    recorded output shows. *)
Theorem smoke_test_stops_at_1024 (w : World) (p : Process) :
  (32 <= length (loader_pass w (make_dataloader_train w) 0))%nat →
  Forall (fun b => batch_len b = batch_size) (loader_pass w (make_dataloader_train w) 0) →
  fst (smoke_test w p) = Return tt
  ∧ forwarded (train_events w smoke_test_config p)
    = take 32 (loader_pass w (make_dataloader_train w) 0)
  ∧ ∃ head, trace (snd (smoke_test w p)) =
              trace p ++ head ++ [EvPrint stderr (MsgMaxsteps 1024 1000)].
Proof.
  intros Hlen Hall.
  assert (Hstream : train_stream w smoke_test_config
                    = loader_pass w (make_dataloader_train w) 0).
  { unfold train_stream, passes. change (range (epochs smoke_test_config)) with [0].
    simpl. apply app_nil_r. }
  unfold smoke_test.
  split; [exact (train_returns w smoke_test_config p)|].
  destruct (train_stops_after w smoke_test_config p 31) as (body & Hb & Heq).
  - rewrite Hstream. lia.
  - rewrite Hstream, (samples_after_uniform batch_size) by (done || lia).
    reflexivity.
  - intros j Hj. rewrite Hstream, (samples_after_uniform batch_size) by (done || lia).
    change (maxsteps smoke_test_config) with 1000. unfold batch_size. lia.
  - rewrite Hstream in Hb, Heq.
    rewrite (samples_after_uniform batch_size) in Heq by (done || lia).
    change (batch_size * (Z.of_nat 31 + 1)) with 1024 in Heq.
    change (maxsteps smoke_test_config) with 1000 in Heq.
    split.
    + rewrite Heq, !forwarded_app, train_prologue_forwarded,
        (batch_blocks_forwarded _ _ Hb).
      change (forwarded [EvPrint _ _]) with (@nil Batch). by rewrite app_nil_r.
    + exists (train_prologue smoke_test_config ++ body).
      rewrite train_trace, Heq. by rewrite <- !app_assoc.
Qed.

Lemma smoke_test_stops_at_1024_witness :
  length (forwarded (train_events (sample_world 2003 32) smoke_test_config fresh_process))
  = 32%nat.
Proof.
  destruct (smoke_test_stops_at_1024 (sample_world 2003 32) fresh_process)
    as (_ & Hfw & _).
  - vm_compute. lia.
  - cbn [sample_world loader_pass]. apply Forall_forall. intros b Hb.
    apply list_elem_of_In, repeat_spec in Hb. subst b. reflexivity.
  - rewrite Hfw. vm_compute. reflexivity.
Defined.

Lemma train_nothing_to_do_witness :
  train_events (sample_world 3 32) (set_epochs 0 Config_default) fresh_process
  = [EvResnet50Cuda false; EvCrossEntropyLoss; EvSGD 0.001%float None;
     EvPrint stdout (MsgFinished 0)].
Proof.
  destruct (train_nothing_to_do (sample_world 3 32) (set_epochs 0 Config_default)
              fresh_process) as [Hnil Hev].
  rewrite Hev; [reflexivity|]. apply Hnil. simpl. lia.
Defined.

Lemma train_completes_under_cap_witness :
  forwarded (train_events (sample_world 2 32) Config_default fresh_process)
  = [batch_of_size 32; batch_of_size 32].
Proof.
  destruct (train_completes_under_cap (sample_world 2 32) Config_default fresh_process)
    as [Hfw _].
  - vm_compute. discriminate.
  - rewrite Hfw. reflexivity.
Defined.

Lemma train_negative_cap_witness :
  optimizer_steps (train_events (sample_world 3 32) (set_maxsteps (-5) Config_default)
                     fresh_process) = 1%nat.
Proof.
  destruct (train_negative_cap (sample_world 3 32) (set_maxsteps (-5) Config_default)
              fresh_process (batch_of_size 32) [batch_of_size 32; batch_of_size 32])
    as (_ & Hsteps & _).
  - simpl. lia.
  - reflexivity.
  - exact Hsteps.
Defined.

Lemma train_progress_line_witness :
  ∃ pre b,
    forwarded (take 5 (train_events (sample_world 2 32) Config_default fresh_process))
    = pre ++ [b]
    ∧ 0 = samples pre.
Proof.
  destruct (train_progress_line (sample_world 2 32) Config_default fresh_process
              5 stderr None 0 0%nat 7.029%float 0%float 0)
    as (pre & b & Hfw & _ & _ & _ & _ & Hs).
  - vm_compute. reflexivity.
  - by exists pre, b.
Defined.

(** ** Which settings [train] reads *)

(** X13. [train] reads five fields of the config and no others: two
    configs that agree on [epochs], [maxsteps], [lr], [rank] and
    [report_s] give the same run.  In particular [report_growth],
    [world_size], [backend], [master_addr] and [master_port] have no
    effect on it (the progress interval is never grown: the generator is
    called with its default growth). *)
Theorem train_reads_five_fields (w : World) (c1 c2 : Config) (p : Process) :
  epochs c1 = epochs c2 → maxsteps c1 = maxsteps c2 → lr c1 = lr c2 →
  rank c1 = rank c2 → report_s c1 = report_s c2 →
  train w c1 p = train w c2 p.
Proof.
  destruct c1, c2. simpl. intros -> -> -> -> ->. reflexivity.
Qed.

Lemma train_reads_five_fields_witness :
  train (sample_world 2 32) Config_default fresh_process
  = train (sample_world 2 32)
      {| epochs := 1; maxsteps := maxsteps_default; lr := 0.001%float;
         momentum := 0%float; rank := None; world_size := 64; backend := "gloo";
         master_addr := "10.0.0.1"; master_port := "29500";
         report_s := 15.0%float; report_growth := 2.0%float |}
      fresh_process.
Proof.
  apply train_reads_five_fields; reflexivity.
Defined.

(** ** Distributed wrapping *)

Lemma train_events_split (w : World) (config : Config) (p : Process) :
  ∃ rest, train_events w config p = train_prologue config ++ rest
          ∧ Forall (fun e => e ≠ EvDistributedDataParallel ∧ ¬ is_init_process_group e) rest.
Proof.
  assert (Hloop : ∀ bs body, batch_blocks bs body →
            Forall (fun e => e ≠ EvDistributedDataParallel ∧ ¬ is_init_process_group e) body).
  { intros bs body Hb.
    eapply Forall_impl; [apply (batch_blocks_loop_events _ _ Hb)|].
    intros e He. split; [by intros ->|]. apply (loop_event_not_closing e He). }
  destruct (train_events_outcome w config p)
    as [(body & _ & Hb & ->)|(pre & b & rest & body & _ & _ & _ & Hb & ->)];
    eexists; (split; [reflexivity|]);
    (apply Forall_app; split; [by eapply Hloop|]);
    repeat constructor; try done; by intros (be & r & n & ?).
Qed.

(** X14. [train] wraps the model in [DistributedDataParallel] exactly when
    [config.rank] is set, and then it does so right after building the
    model, before the loss function and the optimizer are created; with
    [config.rank = None] no wrapping ever happens. *)
Theorem train_wraps_model_iff_rank (w : World) (config : Config) (p : Process) :
  (∀ r, rank config = Some r →
     ∃ rest, train_events w config p =
               [EvResnet50Cuda false; EvDistributedDataParallel;
                EvCrossEntropyLoss; EvSGD (lr config) None] ++ rest
             ∧ EvDistributedDataParallel ∉ rest)
  ∧ (rank config = None →
     EvDistributedDataParallel ∉ train_events w config p).
Proof.
  destruct (train_events_split w config p) as (rest & Heq & Hrest).
  assert (Hnot : EvDistributedDataParallel ∉ rest).
  { intros Hin. rewrite Forall_forall in Hrest. by destruct (Hrest _ Hin). }
  split.
  - intros r Hr. exists rest. split; [|done].
    rewrite Heq. unfold train_prologue. by rewrite Hr.
  - intros Hr Hin. rewrite Heq in Hin. unfold train_prologue in Hin. rewrite Hr in Hin.
    simpl in Hin.
    repeat (apply elem_of_cons in Hin as [Hin|Hin]; [discriminate Hin|]).
    by apply Hnot.
Qed.

Lemma train_wraps_model_iff_rank_witness :
  take 2 (train_events (sample_world 1 32) (set_rank (Some 3) Config_default) fresh_process)
  = [EvResnet50Cuda false; EvDistributedDataParallel].
Proof.
  destruct (train_wraps_model_iff_rank (sample_world 1 32)
              (set_rank (Some 3) Config_default) fresh_process) as [Hsome _].
  destruct (Hsome 3 eq_refl) as (rest & -> & _). reflexivity.
Defined.

Lemma train_on_ray_process (w : World) (r : option Z) (config : Config) (p : Process) :
  snd (train_on_ray w r config p) =
    match r with
    | Some r' =>
        snd (train w (set_rank (Some r') config)
               (emit (EvInitProcessGroup (backend config) r' (world_size config))
                  (setenv "MASTER_PORT" (master_port config)
                     (setenv "MASTER_ADDR" (master_addr config) p))))
    | None => snd (train w config p)
    end.
Proof. unfold train_on_ray. destruct r; by destruct (train w _ _). Qed.

Lemma train_on_ray_config (w : World) (r : option Z) (config : Config) (p : Process) :
  snd (fst (train_on_ray w r config p)) =
    match r with Some r' => set_rank (Some r') config | None => config end.
Proof. unfold train_on_ray. destruct r; by destruct (train w _ _). Qed.

(** X15. Order of the distributed set-up.  Called with a rank,
    [train_on_ray] initialises the process group before the model is built
    and wrapped in [DistributedDataParallel].  Called with [None] on a
    config whose [rank] is already set, it still wraps the model but
    initialises no process group at all. *)
Theorem train_on_ray_order (w : World) (config : Config) (p : Process) :
  (∀ r, ∃ rest,
     trace (snd (train_on_ray w (Some r) config p)) =
       trace p
       ++ [EvInitProcessGroup (backend config) r (world_size config);
           EvResnet50Cuda false; EvDistributedDataParallel;
           EvCrossEntropyLoss; EvSGD (lr config) None]
       ++ rest
     ∧ Forall (fun e => e ≠ EvDistributedDataParallel ∧ ¬ is_init_process_group e) rest)
  ∧ (∀ r0, rank config = Some r0 →
     ∃ rest,
       trace (snd (train_on_ray w None config p)) =
         trace p
         ++ [EvResnet50Cuda false; EvDistributedDataParallel;
             EvCrossEntropyLoss; EvSGD (lr config) None]
         ++ rest
       ∧ Forall (fun e => ¬ is_init_process_group e) rest).
Proof.
  split.
  - intros r. rewrite train_on_ray_process, train_trace.
    destruct (train_events_split w (set_rank (Some r) config)
      (emit (EvInitProcessGroup (backend config) r (world_size config))
         (setenv "MASTER_PORT" (master_port config)
            (setenv "MASTER_ADDR" (master_addr config) p)))) as (rest & -> & Hrest).
    exists rest. split; [|done].
    cbn [emit setenv trace]. rewrite <- app_assoc. reflexivity.
  - intros r0 Hr. rewrite train_on_ray_process, train_trace.
    destruct (train_events_split w config p) as (rest & -> & Hrest).
    exists rest. split.
    + unfold train_prologue. rewrite Hr. reflexivity.
    + eapply Forall_impl; [exact Hrest|]. by intros e [_ ?].
Qed.

Lemma train_on_ray_order_witness :
  ∃ rest,
    trace (snd (train_on_ray (sample_world 1 32) None (set_rank (Some 3) Config_default)
                  fresh_process))
    = [EvResnet50Cuda false; EvDistributedDataParallel;
       EvCrossEntropyLoss; EvSGD 0.001%float None] ++ rest
    ∧ Forall (fun e => ¬ is_init_process_group e) rest.
Proof.
  destruct (train_on_ray_order (sample_world 1 32) (set_rank (Some 3) Config_default)
              fresh_process) as [_ Hnone].
  destruct (Hnone 3 eq_refl) as (rest & Htrace & Hrest).
  exists rest. split; [exact Htrace | exact Hrest].
Defined.

(** ** The distributed launch *)

Lemma Launched_inj (l1 l2 : Launch) : Launched l1 = Launched l2 → l1 = l2.
Proof. intros Heq. by injection Heq. Qed.



(** X17. The tasks of one launch agree with each other.  The task at
    position [i] runs with rank [i]; every task is given the same
    [world_size], the caller's, which is the number of tasks launched; in
    its worker it sets [MASTER_ADDR] and [MASTER_PORT] from the config and
    initialises the process group with that rank and world size before it
    builds and wraps the model. *)
Theorem distributed_training_tasks (c : Cluster) (config : Config) (l : Launch)
    (i : nat) (run : result unit * Config * Process) :
  distributed_training c config = Launched l →
  remote_runs l !! i = Some run →
  let n := Z.of_nat (length (remote_runs l)) in
  n = world_size config
  ∧ rank (snd (fst run)) = Some (Z.of_nat i)
  ∧ world_size (snd (fst run)) = n
  ∧ environ (snd run) !! "MASTER_ADDR"%string = Some (master_addr config)
  ∧ environ (snd run) !! "MASTER_PORT"%string = Some (master_port config)
  ∧ ∃ rest,
      trace (snd run) =
        trace (worker_process c (Z.of_nat i))
        ++ [EvInitProcessGroup (backend config) (Z.of_nat i) n;
            EvResnet50Cuda false; EvDistributedDataParallel;
            EvCrossEntropyLoss; EvSGD (lr config) None]
        ++ rest.
Proof.
  unfold distributed_training.
  destruct (resources c !! "GPU"%string) as [g|]; [|intros Hl; discriminate Hl].
  destruct (float_lt_int g (world_size config)); [intros Hl; discriminate Hl|].
  intros Hl. apply Launched_inj in Hl. subst l. cbn [remote_runs].
  set (m := world_size config).
  rewrite !length_map. unfold range. rewrite length_seqZ.
  rewrite !list_lookup_fmap.
  intros Hrun.
  destruct (seqZ 0 m !! i) as [z|] eqn:Hz; [|discriminate Hrun].
  apply lookup_seqZ in Hz as [-> Hi]. rewrite Z.add_0_l in Hrun.
  cbn [fmap option_fmap option_map fst snd] in Hrun.
  apply (inj Some) in Hrun. subst run.
  assert (Hn : Z.of_nat (Z.to_nat m) = m) by lia.
  rewrite !Hn.
  split; [done|].
  set (pw := worker_process c (Z.of_nat i)).
  set (ww := worker_world c (Z.of_nat i)).
  set (p1 := emit (EvInitProcessGroup (backend config) (Z.of_nat i) (world_size config))
               (setenv "MASTER_PORT" (master_port config)
                  (setenv "MASTER_ADDR" (master_addr config) pw))).
  assert (Hproc : snd (train_on_ray ww (Some (Z.of_nat i)) config pw)
                  = snd (train ww (set_rank (Some (Z.of_nat i)) config) p1))
    by exact (train_on_ray_process ww (Some (Z.of_nat i)) config pw).
  assert (Hcfg : snd (fst (train_on_ray ww (Some (Z.of_nat i)) config pw))
                 = set_rank (Some (Z.of_nat i)) config)
    by exact (train_on_ray_config ww (Some (Z.of_nat i)) config pw).
  rewrite Hcfg, Hproc, train_environ, train_trace.
  split; [done|]. split; [done|].
  split; [subst p1; cbn [emit setenv environ];
          rewrite lookup_insert_ne by done; apply lookup_insert_eq|].
  split; [subst p1; cbn [emit setenv environ]; apply lookup_insert_eq|].
  destruct (train_events_split ww (set_rank (Some (Z.of_nat i)) config) p1)
    as (rest & -> & _).
  exists rest. subst p1. cbn [emit setenv trace]. rewrite <- app_assoc. reflexivity.
Qed.

Lemma distributed_training_tasks_witness :
  ∃ l run, distributed_training (sample_cluster 8%float) Config_default = Launched l
         ∧ remote_runs l !! 1%nat = Some run
         ∧ rank (snd (fst run)) = Some 1 ∧ world_size (snd (fst run)) = 2.
Proof.
  pose proof (distributed_training_launched (sample_cluster 8%float) Config_default
                8%float eq_refl eq_refl) as Hl.
  eexists _, _. split; [exact Hl|]. split; [reflexivity|].
  destruct (distributed_training_tasks (sample_cluster 8%float) Config_default _ 1 _ Hl eq_refl)
    as (_ & Hrank & Hws & _).
  split; [exact Hrank|]. rewrite Hws. reflexivity.
Defined.

(** ** make_sample *)

(** X18. [make_sample] needs the fields "jpg" and "cls" and nothing else.
    It returns the transformed image paired with the label exactly when
    both are present; a sample without "jpg" raises [KeyError('jpg')]
    (whether or not "cls" is there), one with "jpg" but without "cls"
    raises [KeyError('cls')]; and any other field of the sample, present
    or not, never changes the result. *)
Theorem make_sample_fields {V W : Type} (transform : V -> W) (sample : gmap string V) :
  (∀ image cls,
     make_sample transform sample = inr (image, cls)
     ↔ ∃ jpg, sample !! "jpg"%string = Some jpg ∧ image = transform jpg
              ∧ sample !! "cls"%string = Some cls)
  ∧ (sample !! "jpg"%string = None →
     make_sample transform sample = inl (KeyError "jpg"))
  ∧ (is_Some (sample !! "jpg"%string) → sample !! "cls"%string = None →
     make_sample transform sample = inl (KeyError "cls"))
  ∧ (∀ key value, key ≠ "jpg"%string → key ≠ "cls"%string →
     make_sample transform (<[key := value]> sample) = make_sample transform sample
     ∧ make_sample transform (delete key sample) = make_sample transform sample).
Proof.
  unfold make_sample. split; [|split; [|split]].
  - intros image cls. split.
    + destruct (sample !! "jpg"%string) as [jpg|]; [|discriminate].
      destruct (sample !! "cls"%string) as [c|]; [|discriminate].
      intros [= <- <-]. by exists jpg.
    + intros (jpg & -> & -> & ->). done.
  - by intros ->.
  - intros [jpg ->] ->. done.
  - intros key value Hjpg Hcls.
    rewrite !lookup_insert_ne, !lookup_delete_ne by done. done.
Qed.

Lemma make_sample_fields_witness :
  make_sample (fun x : Z => x + 1) {[ "jpg"%string := 41; "__key__"%string := 7 ]}
  = inl (KeyError "cls").
Proof.
  destruct (make_sample_fields (fun x : Z => x + 1)
              {[ "jpg"%string := 41; "__key__"%string := 7 ]}) as (_ & _ & Hcls & _).
  apply Hcls; [by exists 41 | reflexivity].
Defined.
